(** * Pairs-trading bot: signal engine, risk policy, ledgers and execution

    A shallow embedding of the decision and bookkeeping core of the
    repository:

    - [src/strategies/risk_management.py]   (module [RiskManagement])
    - [src/strategies/pairs_trading.py]     (module [PairsTrading])
    - [src/trading/order_manager.py]        (module [Orders])
    - [src/trading/position_manager.py]     (module [Positions])
    - [src/trading/execution_engine.py]     (module [Execution])
    - [src/utils/math_utils.py]             (module [MathUtils])

    Conventions.  Python floats are modelled by rationals [Q]; comparisons
    are the boolean tests below, and Python's [==] on numbers is [Qeq_bool].
    Python dictionaries keyed by strings are [gmap string _]; a dictionary
    with a fixed set of optional keys is a record of [option] fields.
    Objects stored in a dictionary and mutated in place (Position, Order) are
    modelled by updating the map at their key.  Wall-clock time is an explicit
    argument [now].  The exchange, pandas alignment and the numpy/scipy
    statistics are external collaborators: their results are inputs.  A
    value that is a float or [None] is an [option Q]; code that can raise
    returns a [Completion].  In [MathUtils] arrays have dtype int64 or
    float64, float entries are finite values or [nan], and running a
    function either returns or stops at the first fault. *)

From Stdlib Require Import QArith Qabs Qminmax ZArith Lia Lqa Ascii.
From stdpp Require Import base option list strings pretty gmap fin_maps.

Local Open Scope Q_scope.

(** ** Numbers *)

Module Numeric.

(** Python's [x < y] on floats. *)
Definition Qltb (x y : Q) : bool := negb (Qle_bool y x).

(** Python's builtin [min(a, b)]: the first argument unless the second is
    strictly smaller. *)
Definition py_min (a b : Q) : Q := if Qltb b a then b else a.

(** [helpers.safe_divide]. *)
Definition safe_divide (numerator denominator : Q) (default : Q) : Q :=
  if Qeq_bool denominator 0 then default else numerator / denominator.

End Numeric.

Export Numeric.

(** ** Values that may be [None], and code that may raise *)

Module Dynamic.

(** The name Python gives to the type of a value that is a float or
    [None]. *)
Definition type_name (v : option Q) : string :=
  match v with
  | Some _ => "float"
  | None => "NoneType"
  end.

(** How a piece of code ends: normally with a value, or by raising an
    exception [e], of which [str(e)] is kept. *)
Inductive Completion (A : Type) :=
  | Normal (a : A)
  | Raised (message : string).
Arguments Normal {A} a.
Arguments Raised {A} message.

(** [a - b] on two values that are floats or [None]: a TypeError when
    either is [None]. *)
Definition py_sub (a b : option Q) : Completion Q :=
  match a, b with
  | Some x, Some y => Normal (x - y)
  | _, _ =>
      Raised ("unsupported operand type(s) for -: '" +:+ type_name a
              +:+ "' and '" +:+ type_name b +:+ "'")
  end.

End Dynamic.

(** ** Risk management ([src/strategies/risk_management.py]) *)

Module RiskManagement.

(** The configuration dictionary read by [RiskManager.__init__] and by
    [PairsTradingStrategy.__init__] (the [pairs_trading] section). *)
Record Config := {
  cfg_lookback_period : option Z;
  cfg_z_entry_threshold : option Q;
  cfg_z_exit_threshold : option Q;
  cfg_correlation_threshold : option Q;
  cfg_max_position : option Q;
  cfg_position_size : option Q;
  cfg_stop_loss_z : option Q;
  cfg_max_correlation_deviation : option Q
}.

Definition empty_config : Config :=
  {| cfg_lookback_period := None; cfg_z_entry_threshold := None;
     cfg_z_exit_threshold := None; cfg_correlation_threshold := None;
     cfg_max_position := None; cfg_position_size := None;
     cfg_stop_loss_z := None; cfg_max_correlation_deviation := None |}.

Record RiskManager := {
  max_position_size : Q;
  position_size : Q;
  stop_loss_z : Q;
  max_correlation_deviation : Q
}.

(** [RiskManager.__init__]: every field is [config.get(key, default)]. *)
Definition RiskManager_init (config : Config) : RiskManager :=
  {| max_position_size := default (2 # 10) (cfg_max_position config);
     position_size := default (1 # 10) (cfg_position_size config);
     stop_loss_z := default 3 (cfg_stop_loss_z config);
     max_correlation_deviation :=
       default (2 # 10) (cfg_max_correlation_deviation config) |}.

(** [RiskManager.calculate_position_size]. *)
Definition calculate_position_size (self : RiskManager) (account_balance : Q)
    (base_position_size : option Q) : Q :=
  let size := match base_position_size with
              | Some s => s
              | None => position_size self
              end in
  let position_amount := account_balance * size in
  let max_amount := account_balance * max_position_size self in
  py_min position_amount max_amount.

(** [RiskManager.check_stop_loss]. *)
Definition check_stop_loss (self : RiskManager) (current_zscore entry_zscore : Q)
    : bool :=
  if Qltb 0 entry_zscore then
    if Qltb (stop_loss_z self) current_zscore then true else false
  else if Qltb entry_zscore 0 then
    if Qltb current_zscore (- stop_loss_z self) then true else false
  else false.

End RiskManagement.

(** ** Signals exchanged between the strategy and the execution engine *)

Module Signals.

(** The ['signal'] entry of a signal dictionary. *)
Inductive SignalType :=
  | hold
  | buy_spread
  | sell_spread
  | close
  | other_signal (name : string).

Definition is_entry (s : SignalType) : bool :=
  match s with
  | buy_spread | sell_spread => true
  | _ => false
  end.

(** The ['metadata'] dictionary; every key is optional. *)
Record Metadata := {
  md_error : option string;
  md_reason : option string;
  md_correlation : option Q;
  md_hedge_ratio : option Q;
  md_is_cointegrated : option bool;
  md_spread_mean : option Q;
  md_spread_std : option Q;
  md_asset1 : option string;
  md_asset2 : option string
}.

Definition empty_metadata : Metadata :=
  {| md_error := None; md_reason := None; md_correlation := None;
     md_hedge_ratio := None; md_is_cointegrated := None;
     md_spread_mean := None; md_spread_std := None;
     md_asset1 := None; md_asset2 := None |}.

Record Signal := {
  sig_signal : SignalType;
  sig_quantity1 : Q;
  sig_quantity2 : Q;
  sig_zscore : Q;
  sig_metadata : Metadata
}.

End Signals.

(** ** The pairs-trading strategy ([src/strategies/pairs_trading.py]) *)

Module PairsTrading.
Import RiskManagement Signals.

(** The dictionary returned by [DataProcessor.calculate_pair_statistics]
    when it is not empty. *)
Record PairStatistics := {
  st_correlation : Q;
  st_hedge_ratio : Q;
  st_spread_mean : Q;
  st_spread_std : Q;
  st_current_spread : Q;
  st_current_zscore : Q;
  st_is_cointegrated : bool;
  st_cointegration_pvalue : Q
}.

(** What the data pipeline of [calculate_signals] hands to the decision
    logic: the three early exits, or the statistics dictionary of the most
    recent [lookback_period] aligned rows ([None] is the empty dictionary). *)
Inductive PairData :=
  | InvalidData
  | MissingPrices
  | AlignmentFailed
  | Recent (stats : option PairStatistics).

(** The ['position'] entry of a pair state. *)
Record PositionRef := {
  pr_quantity1 : Q;
  pr_quantity2 : Q;
  pr_entry_zscore : Q
}.

(** The six entries written together by [_update_pair_state]. *)
Record CachedStats := {
  cs_hedge_ratio : Q;
  cs_spread_mean : Q;
  cs_spread_std : Q;
  cs_correlation : Q;
  cs_is_cointegrated : bool;
  cs_current_zscore : Q
}.

(** One entry of [pair_states].  [ps_position = None] stands both for a
    missing ['position'] key and for the value [None]: the code only reads
    it through [state.get('position')]. *)
Record PairState := {
  ps_position : option PositionRef;
  ps_cached : option CachedStats
}.

Record Strategy := {
  lookback_period : Z;
  z_entry_threshold : Q;
  z_exit_threshold : Q;
  correlation_threshold : Q;
  risk_manager : RiskManager;
  pair_states : gmap string PairState
}.

(** [PairsTradingStrategy.__init__]. *)
Definition Strategy_init (strategy_config : Config) : Strategy :=
  {| lookback_period := default 60%Z (cfg_lookback_period strategy_config);
     z_entry_threshold := default 2 (cfg_z_entry_threshold strategy_config);
     z_exit_threshold := default (5 # 10) (cfg_z_exit_threshold strategy_config);
     correlation_threshold :=
       default (8 # 10) (cfg_correlation_threshold strategy_config);
     risk_manager := RiskManager_init strategy_config;
     pair_states := ∅ |}.

Definition with_pair_states (self : Strategy) (m : gmap string PairState)
    : Strategy :=
  {| lookback_period := lookback_period self;
     z_entry_threshold := z_entry_threshold self;
     z_exit_threshold := z_exit_threshold self;
     correlation_threshold := correlation_threshold self;
     risk_manager := risk_manager self;
     pair_states := m |}.

(** The values [stats.get(key, default)] of [_update_pair_state]. *)
Definition cached_of_stats (stats : option PairStatistics) : CachedStats :=
  match stats with
  | Some st =>
      {| cs_hedge_ratio := st_hedge_ratio st;
         cs_spread_mean := st_spread_mean st;
         cs_spread_std := st_spread_std st;
         cs_correlation := st_correlation st;
         cs_is_cointegrated := st_is_cointegrated st;
         cs_current_zscore := st_current_zscore st |}
  | None =>
      {| cs_hedge_ratio := 1; cs_spread_mean := 0; cs_spread_std := 1;
         cs_correlation := 0; cs_is_cointegrated := false;
         cs_current_zscore := 0 |}
  end.

(** [PairsTradingStrategy._update_pair_state]. *)
Definition _update_pair_state (self : Strategy) (pair_name : string)
    (stats : option PairStatistics) : Strategy :=
  let old := match pair_states self !! pair_name with
             | Some st => st
             | None => {| ps_position := None; ps_cached := None |}
             end in
  with_pair_states self
    (<[pair_name := {| ps_position := ps_position old;
                       ps_cached := Some (cached_of_stats stats) |}]>
       (pair_states self)).

Definition error_signal (msg : string) : Signal :=
  {| sig_signal := hold; sig_quantity1 := 0; sig_quantity2 := 0;
     sig_zscore := 0;
     sig_metadata :=
       {| md_error := Some msg; md_reason := None; md_correlation := None;
          md_hedge_ratio := None; md_is_cointegrated := None;
          md_spread_mean := None; md_spread_std := None;
          md_asset1 := None; md_asset2 := None |} |}.

Definition stats_metadata (c : CachedStats) : Metadata :=
  {| md_error := None; md_reason := None;
     md_correlation := Some (cs_correlation c);
     md_hedge_ratio := Some (cs_hedge_ratio c);
     md_is_cointegrated := Some (cs_is_cointegrated c);
     md_spread_mean := Some (cs_spread_mean c);
     md_spread_std := Some (cs_spread_std c);
     md_asset1 := None; md_asset2 := None |}.

(** The part of [calculate_signals] after the correlation check: the
    [signal], [quantity1], [quantity2] triple chosen from the position and
    the current z-score. *)
Definition decide_signal (self : Strategy) (c : CachedStats)
    (current_position : option PositionRef) : SignalType * Q * Q :=
  let current_zscore := cs_current_zscore c in
  match current_position with
  | None =>
      if Qltb (z_entry_threshold self) current_zscore then
        (sell_spread, 1, - cs_hedge_ratio c)
      else if Qltb current_zscore (- z_entry_threshold self) then
        (buy_spread, - (1), cs_hedge_ratio c)
      else (hold, 0, 0)
  | Some pos =>
      let entry_zscore := pr_entry_zscore pos in
      if check_stop_loss (risk_manager self) current_zscore entry_zscore then
        (close, - pr_quantity1 pos, - pr_quantity2 pos)
      else if Qltb (Qabs current_zscore) (z_exit_threshold self) then
        (close, - pr_quantity1 pos, - pr_quantity2 pos)
      else (hold, 0, 0)
  end.

(** [PairsTradingStrategy.calculate_signals]: the returned dictionary and
    the strategy with its updated [pair_states]. *)
Definition calculate_signals (self : Strategy) (data : PairData)
    (pair_name : string) : Signal * Strategy :=
  match data with
  | InvalidData => (error_signal "数据无效", self)
  | MissingPrices => (error_signal "缺少价格数据", self)
  | AlignmentFailed => (error_signal "数据对齐失败", self)
  | Recent stats =>
      let self' := _update_pair_state self pair_name stats in
      let c := cached_of_stats stats in
      let current_zscore := cs_current_zscore c in
      let correlation := cs_correlation c in
      if Qltb correlation (correlation_threshold self) then
        ({| sig_signal := hold; sig_quantity1 := 0; sig_quantity2 := 0;
            sig_zscore := current_zscore;
            sig_metadata :=
              {| md_error := None; md_reason := Some "相关性不足";
                 md_correlation := Some correlation;
                 md_hedge_ratio := None; md_is_cointegrated := None;
                 md_spread_mean := None; md_spread_std := None;
                 md_asset1 := None; md_asset2 := None |} |}, self')
      else
        let current_position :=
          match pair_states self' !! pair_name with
          | Some st => ps_position st
          | None => None
          end in
        let '(signal, quantity1, quantity2) :=
          decide_signal self c current_position in
        ({| sig_signal := signal; sig_quantity1 := quantity1;
            sig_quantity2 := quantity2; sig_zscore := current_zscore;
            sig_metadata := stats_metadata c |}, self')
  end.

(** [PairsTradingStrategy.update_position]. *)
Definition update_position (self : Strategy) (pair_name : string)
    (signal : SignalType) (quantity1 quantity2 zscore : Q) : Strategy :=
  let old := match pair_states self !! pair_name with
             | Some st => st
             | None => {| ps_position := None; ps_cached := None |}
             end in
  match signal with
  | buy_spread | sell_spread =>
      with_pair_states self
        (<[pair_name := {| ps_position :=
                             Some {| pr_quantity1 := quantity1;
                                     pr_quantity2 := quantity2;
                                     pr_entry_zscore := zscore |};
                           ps_cached := ps_cached old |}]> (pair_states self))
  | close =>
      with_pair_states self
        (<[pair_name := {| ps_position := None; ps_cached := ps_cached old |}]>
           (pair_states self))
  | _ => with_pair_states self (<[pair_name := old]> (pair_states self))
  end.

(** The position the state machine holds for a pair: [None] is FLAT, [Some]
    is LONG_SPREAD or SHORT_SPREAD. *)
Definition position_of (self : Strategy) (pair_name : string)
    : option PositionRef :=
  match pair_states self !! pair_name with
  | Some st => ps_position st
  | None => None
  end.

End PairsTrading.

(** ** Orders ([src/trading/order_manager.py]) *)

Module Orders.

Inductive OrderStatus :=
  | PENDING
  | SUBMITTED
  | FILLED
  | PARTIALLY_FILLED
  | CANCELLED
  | REJECTED.


(** The strings ['buy'] and ['sell']. *)
Inductive Side := buy | sell.

Record Order := {
  order_id : string;
  pair_name : string;
  asset1 : string;
  asset2 : string;
  side1 : Side;
  side2 : Side;
  quantity1 : Q;
  quantity2 : Q;
  price1 : option Q;
  price2 : option Q;
  order_type : string;
  status : OrderStatus;
  timestamp : Z;
  exchange_order_id1 : option string;
  exchange_order_id2 : option string;
  filled_quantity1 : option Q;
  filled_quantity2 : option Q;
  filled_price1 : option Q;
  filled_price2 : option Q
}.

(** [Order.__init__].  The four fill fields start at [0.0]; the execution
    engine later assigns them what the exchange reports, which may be
    [None]. *)
Definition Order_init (order_id pair_name asset1 asset2 : string)
    (side1 side2 : Side) (quantity1 quantity2 : Q) (price1 price2 : option Q)
    (order_type : string) (now : Z) : Order :=
  {| order_id := order_id; pair_name := pair_name;
     asset1 := asset1; asset2 := asset2; side1 := side1; side2 := side2;
     quantity1 := quantity1; quantity2 := quantity2;
     price1 := price1; price2 := price2; order_type := order_type;
     status := PENDING; timestamp := now;
     exchange_order_id1 := None; exchange_order_id2 := None;
     filled_quantity1 := Some 0; filled_quantity2 := Some 0;
     filled_price1 := Some 0; filled_price2 := Some 0 |}.

(** [Order.update_status]: a plain assignment to [self.status]. *)
Definition update_status (self : Order) (new_status : OrderStatus) : Order :=
  {| order_id := order_id self; pair_name := pair_name self;
     asset1 := asset1 self; asset2 := asset2 self;
     side1 := side1 self; side2 := side2 self;
     quantity1 := quantity1 self; quantity2 := quantity2 self;
     price1 := price1 self; price2 := price2 self;
     order_type := order_type self;
     status := new_status; timestamp := timestamp self;
     exchange_order_id1 := exchange_order_id1 self;
     exchange_order_id2 := exchange_order_id2 self;
     filled_quantity1 := filled_quantity1 self;
     filled_quantity2 := filled_quantity2 self;
     filled_price1 := filled_price1 self;
     filled_price2 := filled_price2 self |}.

(** The three assignments [order.exchange_order_id1 = ...],
    [order.filled_quantity1 = ...], [order.filled_price1 = ...] made by the
    execution engine when leg 1 returns a result. *)
Definition set_fill1 (self : Order) (id : option string)
    (filled price : option Q) : Order :=
  {| order_id := order_id self; pair_name := pair_name self;
     asset1 := asset1 self; asset2 := asset2 self;
     side1 := side1 self; side2 := side2 self;
     quantity1 := quantity1 self; quantity2 := quantity2 self;
     price1 := price1 self; price2 := price2 self;
     order_type := order_type self;
     status := status self; timestamp := timestamp self;
     exchange_order_id1 := id;
     exchange_order_id2 := exchange_order_id2 self;
     filled_quantity1 := filled;
     filled_quantity2 := filled_quantity2 self;
     filled_price1 := price;
     filled_price2 := filled_price2 self |}.

(** The same three assignments for leg 2. *)
Definition set_fill2 (self : Order) (id : option string)
    (filled price : option Q) : Order :=
  {| order_id := order_id self; pair_name := pair_name self;
     asset1 := asset1 self; asset2 := asset2 self;
     side1 := side1 self; side2 := side2 self;
     quantity1 := quantity1 self; quantity2 := quantity2 self;
     price1 := price1 self; price2 := price2 self;
     order_type := order_type self;
     status := status self; timestamp := timestamp self;
     exchange_order_id1 := exchange_order_id1 self;
     exchange_order_id2 := id;
     filled_quantity1 := filled_quantity1 self;
     filled_quantity2 := filled;
     filled_price1 := filled_price1 self;
     filled_price2 := price |}.

Record OrderManager := {
  orders : gmap string Order;
  _order_counter : nat
}.

(** [OrderManager.__init__]. *)
Definition OrderManager_init : OrderManager :=
  {| orders := ∅; _order_counter := 0 |}.

(** The f-string [f"order_{self._order_counter}_{get_current_timestamp()}"]. *)
Definition make_order_id (counter : nat) (now : Z) : string :=
  "order_" +:+ pretty counter +:+ "_" +:+ pretty now.

(** [OrderManager.create_order]. *)
Definition create_order (self : OrderManager) (pair_name asset1 asset2 : string)
    (side1 side2 : Side) (quantity1 quantity2 : Q) (price1 price2 : option Q)
    (order_type : string) (now : Z) : OrderManager * Order :=
  let counter := S (_order_counter self) in
  let oid := make_order_id counter now in
  let order := Order_init oid pair_name asset1 asset2 side1 side2
                 quantity1 quantity2 price1 price2 order_type now in
  ({| orders := <[oid := order]> (orders self); _order_counter := counter |},
   order).

(** Writing a mutated order object back: the dictionary holds the object
    itself, so every mutation of the order is visible under its id. *)
Definition store (self : OrderManager) (order : Order) : OrderManager :=
  {| orders := <[order_id order := order]> (orders self);
     _order_counter := _order_counter self |}.

(** [OrderManager.get_order]. *)
Definition get_order (self : OrderManager) (oid : string) : option Order :=
  orders self !! oid.


End Orders.

(** ** Positions ([src/trading/position_manager.py]) *)

Module Positions.
Import Dynamic.

(** A position object.  The two entry prices are declared as floats, but
    the execution engine passes on what the exchange reported for the fill,
    which may be [None]: a price is a float or [None]. *)
Record Position := {
  pair_name : string;
  asset1 : string;
  asset2 : string;
  quantity1 : Q;
  quantity2 : Q;
  entry_zscore : Q;
  entry_price1 : option Q;
  entry_price2 : option Q;
  entry_timestamp : Z;
  exit_timestamp : option Z;
  exit_price1 : option Q;
  exit_price2 : option Q;
  pnl : Q;
  is_closed : bool
}.

(** [Position.__init__]. *)
Definition Position_init (pair_name asset1 asset2 : string)
    (quantity1 quantity2 entry_zscore : Q) (entry_price1 entry_price2 : option Q)
    (now : Z) : Position :=
  {| pair_name := pair_name; asset1 := asset1; asset2 := asset2;
     quantity1 := quantity1; quantity2 := quantity2;
     entry_zscore := entry_zscore;
     entry_price1 := entry_price1; entry_price2 := entry_price2;
     entry_timestamp := now; exit_timestamp := None;
     exit_price1 := None; exit_price2 := None;
     pnl := 0; is_closed := false |}.

(** The first three assignments of [Position.close]: the exit prices and
    the exit time. *)
Definition record_exit (self : Position) (exit_price1 exit_price2 : option Q)
    (now : Z) : Position :=
  {| pair_name := pair_name self; asset1 := asset1 self; asset2 := asset2 self;
     quantity1 := quantity1 self; quantity2 := quantity2 self;
     entry_zscore := entry_zscore self;
     entry_price1 := entry_price1 self; entry_price2 := entry_price2 self;
     entry_timestamp := entry_timestamp self;
     exit_timestamp := Some now;
     exit_price1 := exit_price1; exit_price2 := exit_price2;
     pnl := pnl self; is_closed := is_closed self |}.

(** The last two assignments of [Position.close]. *)
Definition realize (self : Position) (pnl : Q) : Position :=
  {| pair_name := pair_name self; asset1 := asset1 self; asset2 := asset2 self;
     quantity1 := quantity1 self; quantity2 := quantity2 self;
     entry_zscore := entry_zscore self;
     entry_price1 := entry_price1 self; entry_price2 := entry_price2 self;
     entry_timestamp := entry_timestamp self;
     exit_timestamp := exit_timestamp self;
     exit_price1 := exit_price1 self; exit_price2 := exit_price2 self;
     pnl := pnl; is_closed := true |}.

(** [Position.close]: the object after the call, and how the call ended.
    The exit prices and the exit time are assigned first.  The two
    subtractions that follow raise a TypeError when a price is [None]; the
    object then keeps the exit fields just assigned, its old [pnl] and
    [is_closed = False]. *)
Definition close (self : Position) (exit_price1 exit_price2 : option Q)
    (now : Z) : Position * Completion unit :=
  let marked := record_exit self exit_price1 exit_price2 now in
  match py_sub exit_price1 (entry_price1 self) with
  | Raised message => (marked, Raised message)
  | Normal d1 =>
      let pnl1 := d1 * quantity1 self in
      match py_sub exit_price2 (entry_price2 self) with
      | Raised message => (marked, Raised message)
      | Normal d2 =>
          let pnl2 := d2 * quantity2 self in
          (realize marked (pnl1 + pnl2), Normal tt)
      end
  end.

Record PositionManager := {
  positions : gmap string Position
}.

(** [PositionManager.__init__]. *)
Definition PositionManager_init : PositionManager := {| positions := ∅ |}.

(** [PositionManager.open_position]: the manager afterwards and the
    returned position object. *)
Definition open_position (self : PositionManager)
    (pair_name asset1 asset2 : string)
    (quantity1 quantity2 entry_zscore : Q) (entry_price1 entry_price2 : option Q)
    (now : Z) : PositionManager * Position :=
  match positions self !! pair_name with
  | Some existing =>
      if negb (is_closed existing) then (self, existing)
      else
        let position := Position_init pair_name asset1 asset2 quantity1
                          quantity2 entry_zscore entry_price1 entry_price2 now in
        ({| positions := <[pair_name := position]> (positions self) |}, position)
  | None =>
      let position := Position_init pair_name asset1 asset2 quantity1
                        quantity2 entry_zscore entry_price1 entry_price2 now in
      ({| positions := <[pair_name := position]> (positions self) |}, position)
  end.

(** [PositionManager.close_position]: the manager afterwards, and the
    returned position or the exception that [Position.close] raised. *)
Definition close_position (self : PositionManager) (pair_name : string)
    (exit_price1 exit_price2 : option Q) (now : Z)
    : PositionManager * Completion (option Position) :=
  match positions self !! pair_name with
  | None => (self, Normal None)
  | Some position =>
      if is_closed position then (self, Normal (Some position))
      else
        let '(after, ended) := close position exit_price1 exit_price2 now in
        ({| positions := <[pair_name := after]> (positions self) |},
         match ended with
         | Normal _ => Normal (Some after)
         | Raised message => Raised message
         end)
  end.

(** [PositionManager.get_position]. *)
Definition get_position (self : PositionManager) (pair_name : string)
    : option Position :=
  positions self !! pair_name.

(** [PositionManager.has_position]. *)
Definition has_position (self : PositionManager) (pair_name : string) : bool :=
  match positions self !! pair_name with
  | Some position => negb (is_closed position)
  | None => false
  end.

(** The operations a caller can apply to a position ledger. *)
Inductive LedgerOp :=
  | OpOpen (pair_name asset1 asset2 : string)
      (quantity1 quantity2 entry_zscore : Q)
      (entry_price1 entry_price2 : option Q) (now : Z)
  | OpClose (pair_name : string) (exit_price1 exit_price2 : option Q) (now : Z).

Definition apply_op (self : PositionManager) (op : LedgerOp) : PositionManager :=
  match op with
  | OpOpen n a1 a2 q1 q2 z p1 p2 t => fst (open_position self n a1 a2 q1 q2 z p1 p2 t)
  | OpClose n e1 e2 t => fst (close_position self n e1 e2 t)
  end.

(** The pair name an operation is about. *)
Definition op_pair (op : LedgerOp) : string :=
  match op with
  | OpOpen n _ _ _ _ _ _ _ _ => n
  | OpClose n _ _ _ => n
  end.

(** The ledger after a sequence of operations on a fresh manager. *)
Definition run_ops (ops : list LedgerOp) : PositionManager :=
  fold_left apply_op ops PositionManager_init.

(** What every ledger built through the manager's methods satisfies: a
    position is filed under its own pair name, and carries no profit or
    loss while it is open. *)
Definition well_formed (pm : PositionManager) : Prop :=
  forall (k : string) (p : Position),
    positions pm !! k = Some p ->
    pair_name p = k /\ (is_closed p = false -> pnl p = 0).

End Positions.

(** ** The execution engine ([src/trading/execution_engine.py]) *)

Module Execution.
Import RiskManagement Signals Dynamic.

(** A call made on the exchange interface. *)
Inductive ExchangeCall :=
  | GetTicker (symbol : string)
  | PlaceMarketOrder (symbol : string) (side : Orders.Side) (amount : Q).

(** The non-empty dictionary the exchange returns for a placed order, read
    by the engine through [.get('id')], [.get('filled', d)] and
    [.get('price', d)].  For ['filled'] and ['price'] the outer [option]
    says whether the key is in the dictionary and the inner one whether its
    value is a float or [None]: [.get] falls back on [d] only when the key
    is missing, and returns [None] when the key is there with value
    [None]. *)
Record ExchangeOrder := {
  eo_id : option string;
  eo_filled : option (option Q);
  eo_price : option (option Q)
}.

(** The exchange is an external collaborator: what it answers may depend on
    everything it was asked before.  [ticker_last] gives the ['last'] price
    of a ticker, [None] when [get_ticker] returns nothing or an empty
    dictionary, which the engine's truth test treats alike; a ticker that is
    returned is taken to carry a float under ['last'].  [market_order] gives
    the order dictionary, [None] when [place_market_order] returns nothing
    or an empty dictionary (it catches every exception of the exchange
    library itself). *)
Record Exchange := {
  history : list ExchangeCall;
  ticker_last : list ExchangeCall -> string -> option Q;
  market_order :
    list ExchangeCall -> string -> Orders.Side -> Q -> option ExchangeOrder
}.

Definition record_call (self : Exchange) (c : ExchangeCall) : Exchange :=
  {| history := history self ++ [c];
     ticker_last := ticker_last self;
     market_order := market_order self |}.

(** [ExchangeInterface.get_ticker]. *)
Definition get_ticker (self : Exchange) (symbol : string)
    : option Q * Exchange :=
  (ticker_last self (history self) symbol,
   record_call self (GetTicker symbol)).

(** [ExchangeInterface.place_market_order]. *)
Definition place_market_order (self : Exchange) (symbol : string)
    (side : Orders.Side) (amount : Q) : option ExchangeOrder * Exchange :=
  (market_order self (history self) symbol side amount,
   record_call self (PlaceMarketOrder symbol side amount)).

Record ExecutionEngine := {
  exchange : Exchange;
  order_manager : Orders.OrderManager;
  position_manager : Positions.PositionManager;
  risk_manager : RiskManager
}.

(** [ExecutionEngine.__init__], on a given exchange connection. *)
Definition ExecutionEngine_init (ex : Exchange) (risk_config : option Config)
    : ExecutionEngine :=
  {| exchange := ex;
     order_manager := Orders.OrderManager_init;
     position_manager := Positions.PositionManager_init;
     risk_manager := RiskManager_init (default empty_config risk_config) |}.

(** The dictionary returned by [execute_signal]; keys that a branch does
    not write are [None].  A fill entry that is written holds what the order
    holds, a float or [None]. *)
Record ExecutionResult := {
  success : bool;
  order_id : string;
  error : option string;
  filled_quantity1 : option (option Q);
  filled_quantity2 : option (option Q);
  filled_price1 : option (option Q);
  filled_price2 : option (option Q)
}.

Definition side_of (quantity : Q) : Orders.Side :=
  if Qltb 0 quantity then Orders.buy else Orders.sell.

(** The position-size adjustment of [execute_signal]: both quantities are
    scaled when the cost of an entry exceeds the approved size. *)
Definition adjust_quantities (rm : RiskManager) (signal_type : SignalType)
    (quantity1 quantity2 price1 price2 account_balance : Q) : Q * Q :=
  if is_entry signal_type then
    let cost1 := Qabs quantity1 * price1 in
    let cost2 := Qabs quantity2 * price2 in
    let total_cost := cost1 + cost2 in
    let position_size := calculate_position_size rm account_balance None in
    if Qltb position_size total_cost then
      let scale := safe_divide position_size total_cost 0 in
      (quantity1 * scale, quantity2 * scale)
    else (quantity1, quantity2)
  else (quantity1, quantity2).

(** The position update made once both legs have answered: the ledger
    afterwards, and how the update ended.  [open_position] stores the prices
    it is given and does not raise; [close_position] raises what
    [Position.close] raises. *)
Definition update_ledger (pm : Positions.PositionManager)
    (signal_type : SignalType) (pair_name asset1 asset2 : string)
    (quantity1 quantity2 zscore : Q) (price1 price2 : option Q) (now : Z)
    : Positions.PositionManager * Completion unit :=
  match signal_type with
  | buy_spread | sell_spread =>
      (fst (Positions.open_position pm pair_name asset1 asset2
              quantity1 quantity2 zscore price1 price2 now),
       Normal tt)
  | close =>
      let '(pm', ended) :=
        Positions.close_position pm pair_name price1 price2 now in
      (pm', match ended with
            | Normal _ => Normal tt
            | Raised message => Raised message
            end)
  | _ => (pm, Normal tt)
  end.

(** [ExecutionEngine.execute_signal].  The clock reads made during one call
    (order id, order and position timestamps) all see [now].  Inside the
    [try] block the exchange calls catch their own exceptions and return
    nothing instead, so the [except] branch is entered only from the
    position update, after the order has been marked FILLED. *)
Definition execute_signal (self : ExecutionEngine) (signal : Signal)
    (pair_name : string) (account_balance : Q) (now : Z)
    : option ExecutionResult * ExecutionEngine :=
  let signal_type := sig_signal signal in
  match signal_type with
  | hold => (None, self)
  | _ =>
    let asset1 := default "asset1" (md_asset1 (sig_metadata signal)) in
    let asset2 := default "asset2" (md_asset2 (sig_metadata signal)) in
    let zscore := sig_zscore signal in
    let '(ticker1, ex1) := get_ticker (exchange self) asset1 in
    let '(ticker2, ex2) := get_ticker ex1 asset2 in
    match ticker1, ticker2 with
    | Some price1, Some price2 =>
      let '(quantity1, quantity2) :=
        adjust_quantities (risk_manager self) signal_type
          (sig_quantity1 signal) (sig_quantity2 signal)
          price1 price2 account_balance in
      let side1 := side_of quantity1 in
      let side2 := side_of quantity2 in
      let '(om, order0) :=
        Orders.create_order (order_manager self) pair_name asset1 asset2
          side1 side2 (Qabs quantity1) (Qabs quantity2) None None
          "market" now in
      let '(order1_result, ex3) :=
        place_market_order ex2 asset1 side1 (Qabs quantity1) in
      let order1 :=
        match order1_result with
        | Some r => Orders.set_fill1 order0 (eo_id r)
                      (default (Some (Qabs quantity1)) (eo_filled r))
                      (default (Some price1) (eo_price r))
        | None => order0
        end in
      let '(order2_result, ex4) :=
        place_market_order ex3 asset2 side2 (Qabs quantity2) in
      let order2 :=
        match order2_result with
        | Some r => Orders.set_fill2 order1 (eo_id r)
                      (default (Some (Qabs quantity2)) (eo_filled r))
                      (default (Some price2) (eo_price r))
        | None => order1
        end in
      match order1_result, order2_result with
      | Some _, Some _ =>
        let order := Orders.update_status order2 Orders.FILLED in
        let '(pm, ended) :=
          update_ledger (position_manager self) signal_type pair_name
            asset1 asset2 quantity1 quantity2 zscore
            (Orders.filled_price1 order) (Orders.filled_price2 order) now in
        match ended with
        | Normal _ =>
          (Some {| success := true;
                   order_id := Orders.order_id order;
                   error := None;
                   filled_quantity1 := Some (Orders.filled_quantity1 order);
                   filled_quantity2 := Some (Orders.filled_quantity2 order);
                   filled_price1 := Some (Orders.filled_price1 order);
                   filled_price2 := Some (Orders.filled_price2 order) |},
           {| exchange := ex4; order_manager := Orders.store om order;
              position_manager := pm; risk_manager := risk_manager self |})
        | Raised message =>
          let order := Orders.update_status order Orders.REJECTED in
          (Some {| success := false;
                   order_id := Orders.order_id order;
                   error := Some message;
                   filled_quantity1 := None; filled_quantity2 := None;
                   filled_price1 := None; filled_price2 := None |},
           {| exchange := ex4; order_manager := Orders.store om order;
              position_manager := pm; risk_manager := risk_manager self |})
        end
      | _, _ =>
        let order := Orders.update_status order2 Orders.REJECTED in
        (Some {| success := false;
                 order_id := Orders.order_id order;
                 error := Some "订单执行失败";
                 filled_quantity1 := None; filled_quantity2 := None;
                 filled_price1 := None; filled_price2 := None |},
         {| exchange := ex4; order_manager := Orders.store om order;
            position_manager := position_manager self;
            risk_manager := risk_manager self |})
      end
    | _, _ =>
      (None,
       {| exchange := ex2; order_manager := order_manager self;
          position_manager := position_manager self;
          risk_manager := risk_manager self |})
    end
  end.

(** The two symbols [execute_signal] trades. *)
Definition asset1_of (signal : Signal) : string :=
  default "asset1" (md_asset1 (sig_metadata signal)).

Definition asset2_of (signal : Signal) : string :=
  default "asset2" (md_asset2 (sig_metadata signal)).

(** The dictionary returned on the failure branch of [execute_signal]. *)
Definition failure_payload (oid : string) : ExecutionResult :=
  {| success := false; order_id := oid; error := Some "订单执行失败";
     filled_quantity1 := None; filled_quantity2 := None;
     filled_price1 := None; filled_price2 := None |}.

(** The dictionary returned by the [except] branch of [execute_signal] for
    an exception [e] with [str(e) = message]. *)
Definition exception_payload (oid message : string) : ExecutionResult :=
  {| success := false; order_id := oid; error := Some message;
     filled_quantity1 := None; filled_quantity2 := None;
     filled_price1 := None; filled_price2 := None |}.

(** What the order object records for a leg: the exchange's answer when
    there is one, the initial values otherwise. *)
Definition leg_recorded (answer : option ExchangeOrder) (requested quoted : Q)
    (id : option string) (filled price : option Q) : Prop :=
  match answer with
  | Some x =>
      id = eo_id x /\
      filled = default (Some requested) (eo_filled x) /\
      price = default (Some quoted) (eo_price x)
  | None => id = None /\ filled = Some 0 /\ price = Some 0
  end.

(** What the order holds for a leg that [x] answered: the price and the
    quantity reported, the quoted price and the requested quantity when the
    key is missing, [None] when the exchange reports [None]. *)
Definition fill_price (x : ExchangeOrder) (quoted : Q) : option Q :=
  default (Some quoted) (eo_price x).

Definition fill_quantity (x : ExchangeOrder) (requested : Q) : option Q :=
  default (Some requested) (eo_filled x).

End Execution.

(** ** Z-scores ([src/utils/math_utils.py]) *)

Module MathUtils.

(** A float: a finite value or [nan]. *)
Inductive npfloat := NaN | Fin (q : Q).

(** What can go wrong while the function runs: an index outside the array,
    a division whose divisor is zero, or a [nan] assigned to an entry of an
    integer array, which has no integer to store. *)
Inductive Fault := IndexError | DivisionByZero | InvalidCast.

Inductive Outcome (A : Type) :=
  | Returns (a : A)
  | Raises (f : Fault).
Arguments Returns {A} a.
Arguments Raises {A} f.

#[export] Instance Outcome_ret : MRet Outcome := fun A a => Returns a.
#[export] Instance Outcome_bind : MBind Outcome := fun A B k m =>
  match m with
  | Returns a => k a
  | Raises f => Raises f
  end.

(** Python's index normalisation for [a[i]] on a sequence of length [n]. *)
Definition py_index (n : nat) (i : Z) : option nat :=
  if (0 <=? i)%Z then
    if (i <? Z.of_nat n)%Z then Some (Z.to_nat i) else None
  else
    if (- Z.of_nat n <=? i)%Z then Some (Z.to_nat (i + Z.of_nat n)) else None.

(** Python's bound normalisation for a slice [a[start:stop]]. *)
Definition py_bound (n : nat) (x : Z) : nat :=
  if (x <? 0)%Z then Z.to_nat (Z.max (x + Z.of_nat n) 0)
  else Z.to_nat (Z.min x (Z.of_nat n)).

(** [a[start:stop]]. *)
Definition py_slice {A} (l : list A) (start stop : Z) : list A :=
  let lo := py_bound (length l) start in
  let hi := py_bound (length l) stop in
  take (hi - lo) (drop lo l).

(** [range(start, stop)]. *)
Definition py_range (start stop : Z) : list Z :=
  map (fun k => (start + Z.of_nat k)%Z) (seq 0 (Z.to_nat (stop - start))).

(** [a[i]]. *)
Definition getitem {A} (l : list A) (i : Z) : Outcome A :=
  match py_index (length l) i with
  | Some k => match l !! k with
              | Some x => Returns x
              | None => Raises IndexError
              end
  | None => Raises IndexError
  end.

(** [a[i] = v]. *)
Definition setitem {A} (l : list A) (i : Z) (v : A) : Outcome (list A) :=
  match py_index (length l) i with
  | Some k => Returns (<[k := v]> l)
  | None => Raises IndexError
  end.

Definition Qsum (xs : list Q) : Q := fold_left Qplus xs 0.

Definition Qlen (xs : list Q) : Q := inject_Z (Z.of_nat (length xs)).

(** [std == 0]; [nan == 0] is false. *)
Definition is_zero (x : npfloat) : bool :=
  match x with
  | NaN => false
  | Fin q => Qeq_bool q 0
  end.

(** [a - b]. *)
Definition np_sub (a b : npfloat) : npfloat :=
  match a, b with
  | Fin p, Fin q => Fin (p - q)
  | _, _ => NaN
  end.

(** [a / b], observing a zero divisor. *)
Definition np_div (a b : npfloat) : Outcome npfloat :=
  match b with
  | NaN => Returns NaN
  | Fin q =>
      if Qeq_bool q 0 then Raises DivisionByZero
      else match a with
           | Fin p => Returns (Fin (p / q))
           | NaN => Returns NaN
           end
  end.

(** [(series - mean) / std] on the entries of a whole array. *)
Fixpoint standardize (series : list Q) (mean std : npfloat)
    : Outcome (list npfloat) :=
  match series with
  | [] => Returns []
  | x :: rest =>
      v ← np_div (np_sub (Fin x) mean) std;
      vs ← standardize rest mean std;
      Returns (v :: vs)
  end.


(** An array handed to [calculate_zscore]: integers, or finite floats. *)
Inductive Series :=
  | IntSeries (l : list Z)
  | FloatSeries (l : list Q).


(** The entries as numpy's arithmetic and reductions read them: an integer
    is converted to the float of the same value. *)
Definition values (s : Series) : list Q :=
  match s with
  | IntSeries l => map inject_Z l
  | FloatSeries l => l
  end.

(** An array returned by [calculate_zscore]. *)
Inductive ndarray :=
  | IntArray (l : list Z)
  | FloatArray (l : list npfloat).


Definition size (a : ndarray) : nat :=
  match a with
  | IntArray l => length l
  | FloatArray l => length l
  end.

(** The entry at position [i], read as a float. *)
Definition entry (a : ndarray) (i : nat) : option npfloat :=
  match a with
  | IntArray l => (fun z => Fin (inject_Z z)) <$> l !! i
  | FloatArray l => l !! i
  end.

(** [np.zeros_like(series)]: zeros of the dtype of [series]. *)
Definition zeros_like (series : Series) : ndarray :=
  match series with
  | IntSeries l => IntArray (map (fun _ => 0%Z) l)
  | FloatSeries l => FloatArray (map (fun _ => Fin 0) l)
  end.

(** The integer a finite float becomes when it is assigned to an entry of
    an integer array: the fractional part is dropped. *)
Definition truncate (q : Q) : Z := Z.quot (Qnum q) (Z.pos (Qden q)).

(** [a[i] = v] for a float [v].  A float array stores [v]; an integer array
    stores the truncated value, and a [nan] assigned to it is observed as a
    fault. *)
Definition store (a : ndarray) (i : Z) (v : npfloat) : Outcome ndarray :=
  match a with
  | FloatArray l =>
      l' ← setitem l i v;
      Returns (FloatArray l')
  | IntArray l =>
      match py_index (length l) i with
      | None => Raises IndexError
      | Some k =>
          match v with
          | NaN => Raises InvalidCast
          | Fin q => Returns (IntArray (<[k := truncate q]> l))
          end
      end
  end.



Section WithReductions.

(** [np.mean] and [np.std] on the entries of an array or of a slice.  They
    belong to numpy: the float they return, possibly [nan], is an input
    here, so nothing below depends on how they round. *)
Variable np_mean : list Q -> npfloat.
Variable np_std : list Q -> npfloat.

(** The body of the rolling loop of [calculate_zscore] for one index [i]. *)
Definition rolling_step (series : Series) (window : Z)
    (zscores : ndarray) (i : Z) : Outcome ndarray :=
  let window_data := py_slice (values series) (i - window) i in
  let mean := np_mean window_data in
  let std := np_std window_data in
  if is_zero std then store zscores i (Fin 0)
  else
    x ← getitem (values series) i;
    v ← np_div (np_sub (Fin x) mean) std;
    store zscores i v.

(** The rolling loop: the body at each index in turn, stopping at the first
    fault. *)
Fixpoint rolling_loop (series : Series) (window : Z) (indices : list Z)
    (zscores : ndarray) : Outcome ndarray :=
  match indices with
  | [] => Returns zscores
  | i :: rest =>
      zscores' ← rolling_step series window zscores i;
      rolling_loop series window rest zscores'
  end.

(** The branch of [calculate_zscore] that standardizes by the mean and the
    standard deviation of the whole series. *)
Definition full_series (series : Series) : Outcome ndarray :=
  let mean := np_mean (values series) in
  let std := np_std (values series) in
  if is_zero std then Returns (zeros_like series)
  else
    vs ← standardize (values series) mean std;
    Returns (FloatArray vs).

(** [calculate_zscore]. *)
Definition calculate_zscore (series : Series) (window : option Z)
    : Outcome ndarray :=
  if Nat.eqb (length (values series)) 0 then Returns (FloatArray [])
  else
    match window with
    | None => full_series series
    | Some w =>
        if (Z.of_nat (length (values series)) <=? w)%Z then full_series series
        else
          rolling_loop series w
            (py_range w (Z.of_nat (length (values series))))
            (zeros_like series)
    end.

(** The expression assigned to [current_zscore] on line 83 of
    [DataProcessor.calculate_pair_statistics]:
    [(spread[-1] - spread_mean) / spread_std if spread_std > 0 else 0].
    The spread is a float array, [price2 - hedge_ratio * price1] for a float
    hedge ratio. *)
Definition current_zscore (spread : list Q) : Outcome npfloat :=
  let spread_mean := np_mean spread in
  let spread_std := np_std spread in
  let positive := match spread_std with
                  | NaN => false
                  | Fin s => Qltb 0 s
                  end in
  if positive then
    x ← getitem spread (-1)%Z;
    np_div (np_sub (Fin x) spread_mean) spread_std
  else Returns (Fin 0).

(** The entries of the dictionary returned by [calculate_pair_statistics]
    that are computed from the spread. *)
Record SpreadStatistics := {
  ss_spread_mean : npfloat;
  ss_spread_std : npfloat;
  ss_current_spread : Q;
  ss_current_zscore : npfloat
}.

(** Lines 76 to 94 of [calculate_pair_statistics], from the spread on: after
    the guarded expression of line 83 the dictionary reads [spread[-1]] once
    more, unguarded, on line 90.  (The cointegration test in between does
    not read the spread and catches its own exceptions.) *)
Definition spread_statistics (spread : list Q) : Outcome SpreadStatistics :=
  z ← current_zscore spread;
  x ← getitem spread (-1)%Z;
  Returns {| ss_spread_mean := np_mean spread;
             ss_spread_std := np_std spread;
             ss_current_spread := x;
             ss_current_zscore := z |}.





End WithReductions.

End MathUtils.

(** ** More of the risk manager ([src/strategies/risk_management.py]) *)

Module RiskPolicy.
Import RiskManagement.

(** The dictionary returned by [calculate_risk_metrics] when there are
    trades. *)
Record RiskMetrics := {
  win_rate : Q;
  avg_profit : Q;
  avg_loss : Q;
  profit_loss_ratio : Q;
  total_trades : nat
}.

(** [RiskManager.calculate_risk_metrics].  A trade is given by its ['pnl']
    entry, [None] when the key is missing ([t.get('pnl', 0)]); the result
    [None] is the empty dictionary. *)
Definition calculate_risk_metrics (trades : list (option Q))
    : option RiskMetrics :=
  match trades with
  | [] => None
  | _ =>
      let winning_trades :=
        List.filter (fun t => Qltb 0 (default 0 t)) trades in
      let win_rate := inject_Z (Z.of_nat (length winning_trades))
                      / inject_Z (Z.of_nat (length trades)) in
      let pnls := map (default 0) trades in
      let profits := List.filter (fun p => Qltb 0 p) pnls in
      let losses := List.filter (fun p => Qltb p 0) pnls in
      let avg_profit :=
        if existsb (fun p => Qltb 0 p) pnls
        then MathUtils.Qsum profits / MathUtils.Qlen profits else 0 in
      let avg_loss :=
        if existsb (fun p => Qltb p 0) pnls
        then MathUtils.Qsum losses / MathUtils.Qlen losses else 0 in
      let profit_loss_ratio :=
        if negb (Qeq_bool avg_loss 0)
        then Qabs (safe_divide avg_profit avg_loss 0) else 0 in
      Some {| win_rate := win_rate; avg_profit := avg_profit;
              avg_loss := avg_loss; profit_loss_ratio := profit_loss_ratio;
              total_trades := length trades |}
  end.

End RiskPolicy.

(** ** Sequences of executions ([src/trading/execution_engine.py]) *)

Module EngineRuns.
Import Signals Execution.

(** The arguments of one [execute_signal] call, with the clock value the
    call sees. *)
Record Request := {
  rq_signal : Signal;
  rq_pair : string;
  rq_balance : Q;
  rq_now : Z
}.

Definition serve (eng : ExecutionEngine) (rq : Request) : ExecutionEngine :=
  snd (execute_signal eng (rq_signal rq) (rq_pair rq) (rq_balance rq)
         (rq_now rq)).

(** The engine after a sequence of [execute_signal] calls. *)
Definition run_requests (eng : ExecutionEngine) (rqs : list Request)
    : ExecutionEngine :=
  fold_left serve rqs eng.

(** What every engine driven only through [execute_signal] satisfies: each
    stored order is filed under its own id and has reached FILLED or
    REJECTED, and the position ledger is well formed. *)
Definition settled (eng : ExecutionEngine) : Prop :=
  (forall (id : string) (o : Orders.Order),
     Orders.get_order (order_manager eng) id = Some o ->
     Orders.order_id o = id /\
     (Orders.status o = Orders.FILLED \/ Orders.status o = Orders.REJECTED)) /\
  Positions.well_formed (position_manager eng).

(** What one [execute_signal] call does to the position ledger.  A failure
    leaves it alone, except when the failure is an exception raised by
    [close_position], which has then already written the exit fields of the
    position. *)
Inductive ledger_effect (pm : Positions.PositionManager) (pair_name : string)
    (now : Z) : SignalType -> option ExecutionResult ->
    Positions.PositionManager -> Prop :=
  | effect_none (st : SignalType) :
      ledger_effect pm pair_name now st None pm
  | effect_failed (st : SignalType) (res : ExecutionResult) :
      success res = false ->
      ledger_effect pm pair_name now st (Some res) pm
  | effect_opened (st : SignalType) (res : ExecutionResult)
      (a1 a2 : string) (q1 q2 z : Q) (p1 p2 : option Q) :
      success res = true -> is_entry st = true ->
      ledger_effect pm pair_name now st (Some res)
        (Positions.apply_op pm
           (Positions.OpOpen pair_name a1 a2 q1 q2 z p1 p2 now))
  | effect_closed (res : ExecutionResult) (e1 e2 : option Q)
      (returned : option Positions.Position) :
      success res = true ->
      snd (Positions.close_position pm pair_name e1 e2 now)
        = Dynamic.Normal returned ->
      ledger_effect pm pair_name now close (Some res)
        (Positions.apply_op pm (Positions.OpClose pair_name e1 e2 now))
  | effect_close_raised (res : ExecutionResult) (e1 e2 : option Q)
      (message : string) :
      success res = false ->
      snd (Positions.close_position pm pair_name e1 e2 now)
        = Dynamic.Raised message ->
      ledger_effect pm pair_name now close (Some res)
        (Positions.apply_op pm (Positions.OpClose pair_name e1 e2 now))
  | effect_other (name : string) (res : ExecutionResult) :
      success res = true ->
      ledger_effect pm pair_name now (other_signal name) (Some res) pm.

End EngineRuns.

(** ** Sequences of orders ([src/trading/order_manager.py]) *)

Module OrderBooks.
Import Orders.

(** The arguments of one [create_order] call, with the clock value the
    call sees. *)
Record NewOrder := {
  no_pair : string;
  no_asset1 : string;
  no_asset2 : string;
  no_side1 : Side;
  no_side2 : Side;
  no_quantity1 : Q;
  no_quantity2 : Q;
  no_price1 : option Q;
  no_price2 : option Q;
  no_type : string;
  no_now : Z
}.

Definition place (om : OrderManager) (n : NewOrder) : OrderManager * Order :=
  create_order om (no_pair n) (no_asset1 n) (no_asset2 n) (no_side1 n)
    (no_side2 n) (no_quantity1 n) (no_quantity2 n) (no_price1 n)
    (no_price2 n) (no_type n) (no_now n).

(** The manager after a sequence of [create_order] calls on a fresh one. *)
Definition book (ns : list NewOrder) : OrderManager :=
  fold_left (fun om n => fst (place om n)) ns OrderManager_init.

(** A string without the separator ['_']. *)
Fixpoint no_underscore (s : string) : Prop :=
  match s with
  | EmptyString => True
  | String a rest => a <> "_"%char /\ no_underscore rest
  end.

(** Every id on file was made from a counter value already used. *)
Definition ids_issued (om : OrderManager) : Prop :=
  forall id : string,
    is_Some (orders om !! id) ->
    exists (c : nat) (t : Z),
      id = make_order_id c t /\ (1 <= c <= _order_counter om)%nat.

End OrderBooks.

(** ** Returns and normalised prices
    ([src/utils/math_utils.py], [src/data/data_processor.py]) *)

Module SeriesUtils.
Import MathUtils.

(** [np.diff(prices)]. *)
Fixpoint np_diff (prices : list Q) : list Q :=
  match prices with
  | x :: (y :: _) as rest => (y - x) :: np_diff rest
  | _ => []
  end.

(** Elementwise [a / b] on two arrays of the same length, observing a zero
    divisor. *)
Fixpoint divide_arrays (a b : list Q) : Outcome (list npfloat) :=
  match a, b with
  | x :: a', y :: b' =>
      v ← np_div (Fin x) (Fin y);
      vs ← divide_arrays a' b';
      Returns (v :: vs)
  | _, _ => Returns []
  end.

(** [calculate_returns]: [np.diff(prices) / prices[:-1]]. *)
Definition calculate_returns (prices : list Q) : Outcome (list npfloat) :=
  if (length prices <? 2)%nat then Returns []
  else divide_arrays (np_diff prices) (py_slice prices 0 (-1)).



End SeriesUtils.

(** ** Alerts ([src/monitoring/alerts.py]) *)

Module Alerts.
Import MathUtils.

Inductive AlertLevel := INFO | WARNING | ERROR | CRITICAL.

Section WithMetadata.

(** The type of the metadata dictionaries attached to alerts. *)
Variable M : Type.

(** [metadata = None] is the empty dictionary of [metadata or {}]. *)
Record Alert := {
  level : AlertLevel;
  message : string;
  pair_name : option string;
  metadata : option M;
  timestamp : Z
}.

Record AlertManager := {
  alerts : list Alert;
  max_alerts : Z
}.

(** [AlertManager.__init__]. *)
Definition AlertManager_init : AlertManager :=
  {| alerts := []; max_alerts := 1000 |}.

(** [AlertManager.add_alert]: append, then keep [alerts[-max_alerts:]]
    when the list has grown past [max_alerts]. *)
Definition add_alert (self : AlertManager) (level : AlertLevel)
    (message : string) (pair_name : option string) (metadata : option M)
    (now : Z) : AlertManager :=
  let alert := {| level := level; message := message;
                  pair_name := pair_name; metadata := metadata;
                  timestamp := now |} in
  let appended := alerts self ++ [alert] in
  {| alerts :=
       if (max_alerts self <? Z.of_nat (length appended))%Z
       then py_slice appended (- max_alerts self)
              (Z.of_nat (length appended))
       else appended;
     max_alerts := max_alerts self |}.

(** [AlertManager.get_recent_alerts]: [alerts[-limit:]]. *)
Definition get_recent_alerts (self : AlertManager) (limit : Z) : list Alert :=
  py_slice (alerts self) (- limit) (Z.of_nat (length (alerts self))).

(** [AlertManager.clear_alerts]. *)
Definition clear_alerts (self : AlertManager) : AlertManager :=
  {| alerts := []; max_alerts := max_alerts self |}.

(** The arguments of one [add_alert] call, with the clock value it sees. *)
Record NewAlert := {
  na_level : AlertLevel;
  na_message : string;
  na_pair : option string;
  na_metadata : option M;
  na_now : Z
}.

Definition raise_alert (self : AlertManager) (n : NewAlert) : AlertManager :=
  add_alert self (na_level n) (na_message n) (na_pair n) (na_metadata n)
    (na_now n).

(** The alert object an [add_alert] call builds. *)
Definition alert_of (n : NewAlert) : Alert :=
  {| level := na_level n; message := na_message n; pair_name := na_pair n;
     metadata := na_metadata n; timestamp := na_now n |}.

(** The manager after a sequence of [add_alert] calls on a fresh one. *)
Definition raise_all (ns : list NewAlert) : AlertManager :=
  fold_left raise_alert ns AlertManager_init.

End WithMetadata.

Arguments level {M} _.
Arguments message {M} _.
Arguments pair_name {M} _.
Arguments metadata {M} _.
Arguments timestamp {M} _.
Arguments alerts {M} _.
Arguments max_alerts {M} _.
Arguments AlertManager_init {M}.
Arguments add_alert {M} _ _ _ _ _ _.
Arguments get_recent_alerts {M} _ _.
Arguments clear_alerts {M} _.
Arguments raise_alert {M} _ _.
Arguments alert_of {M} _.
Arguments raise_all {M} _.

(** [AlertManager.alert_trade_execution]; [details] is the result
    dictionary of [execute_signal], which always carries an order id. *)
Definition alert_trade_execution
    (self : AlertManager Execution.ExecutionResult) (pair : string)
    (success : bool) (details : Execution.ExecutionResult) (now : Z)
    : AlertManager Execution.ExecutionResult :=
  let level := if success then INFO else ERROR in
  let message := "交易执行" +:+ (if success then "成功" else "失败")
                 +:+ ": " +:+ Execution.order_id details in
  add_alert self level message (Some pair) (Some details) now.

End Alerts.

(** ** The per-pair cycle of the bot ([src/main.py]) *)

Module Bot.
Import Signals PairsTrading Execution.

Record PairsTradingBot := {
  strategy : Strategy;
  execution_engine : ExecutionEngine;
  alert_manager : Alerts.AlertManager ExecutionResult
}.

(** The components built by [PairsTradingBot.__init__]: the strategy and
    the engine read the same [pairs_trading] section of the configuration. *)
Definition PairsTradingBot_init (ex : Exchange)
    (pairs_trading : RiskManagement.Config) : PairsTradingBot :=
  {| strategy := Strategy_init pairs_trading;
     execution_engine := ExecutionEngine_init ex (Some pairs_trading);
     alert_manager := Alerts.AlertManager_init |}.

(** [PairsTradingBot._process_pair].  [fetched] is what the historical
    data gives for the pair ([None] when either frame is empty), [balance]
    is the sum of the balances the exchange reports (a read that is not
    recorded in the exchange history), and all clock reads of the cycle see
    [now]. *)
Definition _process_pair (self : PairsTradingBot) (pair_name : string)
    (fetched : option PairData) (balance : Q) (now : Z) : PairsTradingBot :=
  match fetched with
  | None => self
  | Some data =>
      let '(signal, strategy1) :=
        calculate_signals (strategy self) data pair_name in
      match sig_signal signal with
      | hold =>
          {| strategy := strategy1;
             execution_engine := execution_engine self;
             alert_manager := alert_manager self |}
      | _ =>
          let '(result, engine1) :=
            execute_signal (execution_engine self) signal pair_name balance
              now in
          match result with
          | Some res =>
              let alerts1 :=
                Alerts.alert_trade_execution (alert_manager self) pair_name
                  (success res) res now in
              {| strategy :=
                   if success res
                   then update_position strategy1 pair_name
                          (sig_signal signal) (sig_quantity1 signal)
                          (sig_quantity2 signal) (sig_zscore signal)
                   else strategy1;
                 execution_engine := engine1;
                 alert_manager := alerts1 |}
          | None =>
              {| strategy := strategy1; execution_engine := engine1;
                 alert_manager := alert_manager self |}
          end
      end
  end.

(** One cycle for one pair, with the inputs it reads. *)
Record Cycle := {
  cy_pair : string;
  cy_fetched : option PairData;
  cy_balance : Q;
  cy_now : Z
}.

Definition step (self : PairsTradingBot) (c : Cycle) : PairsTradingBot :=
  _process_pair self (cy_pair c) (cy_fetched c) (cy_balance c) (cy_now c).

(** The bot after a sequence of per-pair cycles. *)
Definition run_cycles (self : PairsTradingBot) (cs : list Cycle)
    : PairsTradingBot :=
  fold_left step cs self.

(** The signal engine and the position ledger agree on which pairs are
    open. *)
Definition in_step (self : PairsTradingBot) : Prop :=
  forall pair : string,
    is_Some (position_of (strategy self) pair) <->
    Positions.has_position (position_manager (execution_engine self)) pair
      = true.

End Bot.

(** ** Sample data used to exercise the definitions *)

Module Scenarios.
Import RiskManagement Signals PairsTrading Execution.

(** A configuration that sets only the two sizing fractions. *)
Definition sized_config (x y : Q) : Config :=
  {| cfg_lookback_period := None; cfg_z_entry_threshold := None;
     cfg_z_exit_threshold := None; cfg_correlation_threshold := None;
     cfg_max_position := Some y; cfg_position_size := Some x;
     cfg_stop_loss_z := None; cfg_max_correlation_deviation := None |}.

(** Statistics with hedge ratio 2 and the given z-score and correlation. *)
Definition sample_stats (zscore correlation : Q) : PairStatistics :=
  {| st_correlation := correlation; st_hedge_ratio := 2;
     st_spread_mean := 0; st_spread_std := 1; st_current_spread := zscore;
     st_current_zscore := zscore; st_is_cointegrated := true;
     st_cointegration_pvalue := 1 # 100 |}.

(** A strategy with default thresholds (entry 2, exit 0.5, correlation 0.8,
    stop-loss 3) holding a short-spread position on ["BTC-ETH"] entered at
    z-score 2.1. *)
Definition short_holder : Strategy :=
  update_position (Strategy_init empty_config) "BTC-ETH" sell_spread
    1 (- (2)) (21 # 10).

(** A ledger with one open position on ["BTC-ETH"]. *)
Definition one_open : Positions.PositionManager :=
  Positions.run_ops
    [Positions.OpOpen "BTC-ETH" "BTC" "ETH" 1 (- (2)) (21 # 10)
       (Some 100) (Some 50) 1000%Z].


(** An exchange that quotes 100 for ["asset1"] and 50 for anything else,
    fills every order on ["asset1"] in full at 101 and returns nothing for
    orders on other symbols. *)
Definition one_legged_exchange : Exchange :=
  {| history := [];
     ticker_last := fun _ symbol =>
       if String.eqb symbol "asset1" then Some 100 else Some 50;
     market_order := fun _ symbol _ amount =>
       if String.eqb symbol "asset1" then
         Some {| eo_id := Some "X-1"; eo_filled := Some (Some amount);
                 eo_price := Some (Some 101) |}
       else None |}.

(** The sell_spread signal of the strategy for a hedge ratio of 2. *)
Definition entry_signal : Signal :=
  {| sig_signal := sell_spread; sig_quantity1 := 1; sig_quantity2 := - (2);
     sig_zscore := 25 # 10; sig_metadata := empty_metadata |}.

Definition fresh_engine : ExecutionEngine :=
  ExecutionEngine_init one_legged_exchange None.

(** A stand-in for the square root on rationals, exact on squares of
    integers: [sqrt (n/d)] is taken as [isqrt (n*d) / d]. *)
Definition sample_sqrt (q : Q) : Q :=
  Z.sqrt (Qnum q * QDen q) # Qden q.

(** A mean and a standard deviation to run the z-score functions with: the
    exact mean, and [sample_sqrt] of the exact mean squared deviation; both
    are [nan] on an empty slice. *)
Definition sample_mean (xs : list Q) : MathUtils.npfloat :=
  match xs with
  | [] => MathUtils.NaN
  | _ => MathUtils.Fin (MathUtils.Qsum xs / MathUtils.Qlen xs)
  end.

Definition sample_std (xs : list Q) : MathUtils.npfloat :=
  match xs with
  | [] => MathUtils.NaN
  | _ =>
      let m := MathUtils.Qsum xs / MathUtils.Qlen xs in
      MathUtils.Fin
        (sample_sqrt
           (MathUtils.Qsum (map (fun x => (x - m) * (x - m)) xs)
            / MathUtils.Qlen xs))
  end.

(** An exchange that quotes 100 for ["asset1"] and 50 for anything else and
    fills every order in full, ["asset1"] at 101 and the rest at 49. *)
Definition filling_exchange : Exchange :=
  {| history := [];
     ticker_last := fun _ symbol =>
       if String.eqb symbol "asset1" then Some 100 else Some 50;
     market_order := fun _ symbol _ amount =>
       Some {| eo_id := Some "X-7"; eo_filled := Some (Some amount);
               eo_price := Some (Some (if String.eqb symbol "asset1"
                                       then 101 else 49)) |} |}.

(** An exchange that quotes 100 for ["asset1"] and 50 for anything else and
    answers every order with an id, the amount as filled, and ['price'] set
    to [None]. *)
Definition unpriced_exchange : Exchange :=
  {| history := [];
     ticker_last := fun _ symbol =>
       if String.eqb symbol "asset1" then Some 100 else Some 50;
     market_order := fun _ _ _ amount =>
       Some {| eo_id := Some "X-9"; eo_filled := Some (Some amount);
               eo_price := Some None |} |}.

(** An exchange that has no ticker for any symbol. *)
Definition silent_exchange : Exchange :=
  {| history := [];
     ticker_last := fun _ _ => None;
     market_order := fun _ _ _ _ => None |}.



(** A market order request on ["BTC-ETH"] made at clock value [t]. *)
Definition sample_order (t : Z) : OrderBooks.NewOrder :=
  {| OrderBooks.no_pair := "BTC-ETH"; OrderBooks.no_asset1 := "BTC";
     OrderBooks.no_asset2 := "ETH"; OrderBooks.no_side1 := Orders.buy;
     OrderBooks.no_side2 := Orders.sell; OrderBooks.no_quantity1 := 1;
     OrderBooks.no_quantity2 := 2; OrderBooks.no_price1 := None;
     OrderBooks.no_price2 := None; OrderBooks.no_type := "market";
     OrderBooks.no_now := t |}.

End Scenarios.

(** * Properties *)

(** ** Comparisons and [min] *)

Module NumericFacts.

Lemma Qltb_true (x y : Q) : Qltb x y = true <-> x < y.
Proof.
  unfold Qltb. rewrite negb_true_iff.
  split; intros H.
  - apply Qnot_le_lt. intros Hle. apply Qle_bool_iff in Hle. congruence.
  - destruct (Qle_bool y x) eqn:E; [|reflexivity].
    apply Qle_bool_iff in E. exfalso. exact (Qlt_not_le _ _ H E).
Qed.

Lemma Qltb_false (x y : Q) : Qltb x y = false <-> y <= x.
Proof.
  unfold Qltb. rewrite negb_false_iff. apply Qle_bool_iff.
Qed.

Lemma py_min_cases (a b : Q) :
  (py_min a b = a /\ a <= b) \/ (py_min a b = b /\ b < a).
Proof.
  unfold py_min. destruct (Qltb b a) eqn:E.
  - right. split; [reflexivity|]. now apply Qltb_true.
  - left. split; [reflexivity|]. now apply Qltb_false.
Qed.

Lemma py_min_Qmin (a b : Q) : py_min a b == Qmin a b.
Proof.
  destruct (py_min_cases a b) as [[-> H]|[-> H]].
  - symmetry. now apply Q.min_l.
  - symmetry. apply Q.min_r. now apply Qlt_le_weak.
Qed.

Lemma py_min_nonneg (a b : Q) : 0 <= a -> 0 <= b -> 0 <= py_min a b.
Proof.
  intros Ha Hb. destruct (py_min_cases a b) as [[-> _]|[-> _]]; assumption.
Qed.

End NumericFacts.

(** ** Risk manager *)

Module RiskFacts.
Import RiskManagement NumericFacts Scenarios.

(** The stop-loss test is direction-aware: a short-spread entry
    ([entry_zscore > 0]) trips above [stop_loss_z], a long-spread entry
    below [-stop_loss_z], and a zero entry never. *)
Lemma check_stop_loss_spec (rm : RiskManager) (cur entry : Q) :
  check_stop_loss rm cur entry = true <->
  (0 < entry /\ stop_loss_z rm < cur) \/
  (entry < 0 /\ cur < - stop_loss_z rm).
Proof.
  unfold check_stop_loss.
  destruct (Qltb 0 entry) eqn:E1.
  - apply Qltb_true in E1.
    destruct (Qltb (stop_loss_z rm) cur) eqn:E2.
    + apply Qltb_true in E2. split; [intros _; left; split; assumption | reflexivity].
    + apply Qltb_false in E2. split; [discriminate|].
      intros [[_ H]|[H _]].
      * exfalso. exact (Qlt_not_le _ _ H E2).
      * exfalso. exact (Qlt_irrefl _ (Qlt_trans _ _ _ E1 H)).
  - apply Qltb_false in E1.
    destruct (Qltb entry 0) eqn:E3.
    + apply Qltb_true in E3.
      destruct (Qltb cur (- stop_loss_z rm)) eqn:E4.
      * apply Qltb_true in E4. split; [intros _; right; split; assumption | reflexivity].
      * apply Qltb_false in E4. split; [discriminate|].
        intros [[H _]|[_ H]].
        -- exfalso. exact (Qlt_not_le _ _ H E1).
        -- exfalso. exact (Qlt_not_le _ _ H E4).
    + apply Qltb_false in E3. split; [discriminate|].
      intros [[H _]|[H _]].
      * exfalso. exact (Qlt_not_le _ _ H E1).
      * exfalso. exact (Qlt_not_le _ _ H E3).
Qed.

(** [RiskManager.__init__] keeps whatever the configuration holds. *)
Lemma RiskManager_init_stores (config : Config) (x y : Q) :
  cfg_position_size config = Some x ->
  cfg_max_position config = Some y ->
  position_size (RiskManager_init config) = x /\
  max_position_size (RiskManager_init config) = y.
Proof. intros Hx Hy. unfold RiskManager_init. simpl. now rewrite Hx, Hy. Qed.

(** C7, as stated, fails: a configuration with [position_size = -1/2] and
    [max_position = 2] is accepted unchanged by [RiskManager.__init__]
    (neither lies in (0,1]), and with it a balance of 100 is sized at -50. *)
Lemma position_size_unvalidated :
  let rm := RiskManager_init (sized_config (- (1 # 2)) 2) in
  position_size rm = - (1 # 2) /\
  max_position_size rm = 2 /\
  calculate_position_size rm 100 None == - (50) /\
  calculate_position_size rm 100 None < 0.
Proof. vm_compute. repeat split; reflexivity. Qed.

(** C7, amended: position sizing returns
    [min(balance*fraction, balance*max_position_size)], where the fraction
    is the argument when given and the configured [position_size]
    otherwise; the result is one of the two products; it is non-negative
    whenever the balance and both fractions are non-negative; and the
    constructor stores the configured fractions as they are, without any
    range check. *)
Theorem position_size_is_min (rm : RiskManager) (balance : Q)
    (fraction : option Q) :
  let size := default (position_size rm) fraction in
  let r := calculate_position_size rm balance fraction in
  r == Qmin (balance * size) (balance * max_position_size rm) /\
  (r = balance * size \/ r = balance * max_position_size rm) /\
  (0 <= balance -> 0 <= size -> 0 <= max_position_size rm -> 0 <= r) /\
  (forall x y : Q,
     position_size (RiskManager_init (sized_config x y)) = x /\
     max_position_size (RiskManager_init (sized_config x y)) = y).
Proof.
  intros size r.
  assert (Hr : r = py_min (balance * size) (balance * max_position_size rm)).
  { unfold r, size, calculate_position_size. now destruct fraction. }
  repeat split.
  - rewrite Hr. apply py_min_Qmin.
  - rewrite Hr. destruct (py_min_cases (balance * size)
                            (balance * max_position_size rm)) as [[-> _]|[-> _]];
      [now left | now right].
  - intros Hb Hs Hm. rewrite Hr.
    apply py_min_nonneg; apply Qmult_le_0_compat; assumption.
Qed.

Lemma position_size_is_min_witness :
  0 <= calculate_position_size (RiskManager_init empty_config) 1000 None.
Proof.
  apply (proj1 (proj2 (proj2
           (position_size_is_min (RiskManager_init empty_config) 1000 None))));
    unfold Qle; simpl; lia.
Defined.

End RiskFacts.

(** ** Signal engine *)

Module StrategyFacts.
Import RiskManagement Signals PairsTrading NumericFacts Scenarios.

(** Refreshing the cached statistics never touches the position. *)
Lemma update_pair_state_position (self : Strategy) (pair_name : string)
    (stats : option PairStatistics) :
  position_of (_update_pair_state self pair_name stats) pair_name
  = position_of self pair_name.
Proof.
  unfold position_of, _update_pair_state. simpl.
  rewrite lookup_insert_eq. simpl.
  now destruct (pair_states self !! pair_name).
Qed.

Lemma update_pair_state_other (self : Strategy) (p q : string)
    (stats : option PairStatistics) :
  p <> q ->
  position_of (_update_pair_state self p stats) q = position_of self q.
Proof.
  intros Hne. unfold position_of, _update_pair_state. simpl.
  now rewrite lookup_insert_ne.
Qed.

(** [calculate_signals] never changes the position of any pair: only
    [update_position] does. *)
Lemma calculate_signals_position (self : Strategy) (data : PairData)
    (pair_name q : string) :
  position_of (snd (calculate_signals self data pair_name)) q
  = position_of self q.
Proof.
  assert (Hupd : forall stats,
             position_of (_update_pair_state self pair_name stats) q
             = position_of self q).
  { intros stats. destruct (decide (pair_name = q)) as [->|Hne].
    - apply update_pair_state_position.
    - now apply update_pair_state_other. }
  destruct data as [ | | |stats]; simpl; try reflexivity.
  destruct (Qltb _ _); simpl; [apply Hupd|].
  destruct (decide_signal _ _ _) as [[s q1] q2]. simpl. apply Hupd.
Qed.

(** Past the correlation gate the signal is the one [decide_signal] picks
    for the position held before the call. *)
Lemma calculate_signals_passed (self : Strategy) (pair_name : string)
    (stats : option PairStatistics) :
  correlation_threshold self <= cs_correlation (cached_of_stats stats) ->
  let sg := fst (calculate_signals self (Recent stats) pair_name) in
  (sig_signal sg, sig_quantity1 sg, sig_quantity2 sg)
  = decide_signal self (cached_of_stats stats) (position_of self pair_name).
Proof.
  intros Hc sg. apply Qltb_false in Hc.
  unfold sg, calculate_signals. cbv zeta. rewrite Hc.
  fold (position_of (_update_pair_state self pair_name stats) pair_name).
  rewrite update_pair_state_position.
  destruct (decide_signal _ _ _) as [[s q1] q2]. reflexivity.
Qed.

(** C1, as stated, fails: with the short-spread position open and the
    z-score at 3.2 the stop-loss closes the trade when the correlation is
    0.9, but with the correlation at 0.5 (below the threshold 0.8) the same
    cycle answers hold: the exit rules are not evaluated under the gate. *)
Lemma gate_skips_exit_rules :
  position_of short_holder "BTC-ETH"
    = Some {| pr_quantity1 := 1; pr_quantity2 := - (2);
              pr_entry_zscore := 21 # 10 |} /\
  sig_signal (fst (calculate_signals short_holder
                     (Recent (Some (sample_stats (32 # 10) (9 # 10))))
                     "BTC-ETH")) = close /\
  sig_signal (fst (calculate_signals short_holder
                     (Recent (Some (sample_stats (32 # 10) (5 # 10))))
                     "BTC-ETH")) = hold.
Proof. vm_compute. repeat split; reflexivity. Qed.

(** C1, amended: in every evaluation cycle with
    [correlation < correlation_threshold] the gate returns before any other
    rule is looked at: the signal is hold with zero quantities whatever the
    position, the z-score and the stop-loss setting are, and the position of
    the pair is left as it was.  So an open position is not force-closed,
    and neither the stop-loss nor the convergence exit is evaluated in that
    cycle: the gate blocks entries and exits alike. *)
Theorem correlation_gate_holds (self : Strategy) (pair_name : string)
    (stats : option PairStatistics) :
  cs_correlation (cached_of_stats stats) < correlation_threshold self ->
  let r := calculate_signals self (Recent stats) pair_name in
  sig_signal (fst r) = hold /\
  sig_quantity1 (fst r) = 0 /\
  sig_quantity2 (fst r) = 0 /\
  sig_zscore (fst r) = cs_current_zscore (cached_of_stats stats) /\
  position_of (snd r) pair_name = position_of self pair_name.
Proof.
  intros Hc r. split; [|split; [|split; [|split]]];
    try (unfold r; simpl; apply Qltb_true in Hc; rewrite Hc; reflexivity).
  apply calculate_signals_position.
Qed.

Lemma correlation_gate_holds_witness :
  let r := calculate_signals short_holder
             (Recent (Some (sample_stats (32 # 10) (5 # 10)))) "BTC-ETH" in
  sig_signal (fst r) = hold /\
  position_of (snd r) "BTC-ETH" = position_of short_holder "BTC-ETH".
Proof.
  intros r.
  destruct (correlation_gate_holds short_holder "BTC-ETH"
              (Some (sample_stats (32 # 10) (5 # 10))))
    as (H1 & _ & _ & _ & H5).
  - unfold Qlt; simpl; lia.
  - split; [exact H1 | exact H5].
Defined.

(** C3: with an open position and the correlation gate passed, the
    stop-loss test comes first: if [check_stop_loss] fires the signal is
    close with the negated stored quantities, whatever the z-score is
    otherwise; failing that, [|zscore| < z_exit_threshold] gives close with
    the same negated quantities; failing both the signal is hold.  The
    position held by the strategy is the same after the call in all three
    cases. *)
Theorem stop_loss_before_convergence (self : Strategy) (pair_name : string)
    (stats : option PairStatistics) (pos : PositionRef) :
  position_of self pair_name = Some pos ->
  correlation_threshold self <= cs_correlation (cached_of_stats stats) ->
  let r := calculate_signals self (Recent stats) pair_name in
  let z := cs_current_zscore (cached_of_stats stats) in
  let stop := check_stop_loss (risk_manager self) z (pr_entry_zscore pos) in
  (stop = true ->
     sig_signal (fst r) = close /\
     sig_quantity1 (fst r) = - pr_quantity1 pos /\
     sig_quantity2 (fst r) = - pr_quantity2 pos) /\
  (stop = false -> Qabs z < z_exit_threshold self ->
     sig_signal (fst r) = close /\
     sig_quantity1 (fst r) = - pr_quantity1 pos /\
     sig_quantity2 (fst r) = - pr_quantity2 pos) /\
  (stop = false -> ~ Qabs z < z_exit_threshold self ->
     sig_signal (fst r) = hold /\
     sig_quantity1 (fst r) = 0 /\
     sig_quantity2 (fst r) = 0) /\
  position_of (snd r) pair_name = Some pos.
Proof.
  intros Hpos Hc r z stop.
  pose proof (calculate_signals_passed self pair_name stats Hc) as Hd.
  cbv zeta in Hd. rewrite Hpos in Hd. unfold decide_signal in Hd.
  subst r z stop.
  split; [|split; [|split]].
  - intros Hs. rewrite Hs in Hd. injection Hd as H1 H2 H3; repeat split; assumption.
  - intros Hs Hz. rewrite Hs in Hd. apply Qltb_true in Hz.
    rewrite Hz in Hd. injection Hd as H1 H2 H3; repeat split; assumption.
  - intros Hs Hz. rewrite Hs in Hd.
    destruct (Qltb (Qabs (cs_current_zscore (cached_of_stats stats)))
                (z_exit_threshold self)) eqn:E.
    + apply Qltb_true in E. contradiction.
    + injection Hd as H1 H2 H3; repeat split; assumption.
  - rewrite calculate_signals_position. exact Hpos.
Qed.

Lemma stop_loss_before_convergence_witness :
  let r := calculate_signals short_holder
             (Recent (Some (sample_stats (32 # 10) (9 # 10)))) "BTC-ETH" in
  sig_signal (fst r) = close /\
  sig_quantity1 (fst r) = - (1) /\
  sig_quantity2 (fst r) = - - (2).
Proof.
  intros r.
  refine (proj1 (stop_loss_before_convergence short_holder "BTC-ETH"
                   (Some (sample_stats (32 # 10) (9 # 10)))
                   {| pr_quantity1 := 1; pr_quantity2 := - (2);
                      pr_entry_zscore := 21 # 10 |} _ _) _).
  - reflexivity.
  - unfold Qle; simpl; lia.
  - reflexivity.
Defined.

(** C6: in state FLAT (no position held) with the correlation at or above
    the threshold, the cases are tried in order: [zscore >
    z_entry_threshold] gives sell_spread with [quantity1 = 1] and
    [quantity2 = -hedge_ratio]; otherwise [zscore < -z_entry_threshold]
    gives buy_spread with [quantity1 = -1] and [quantity2 = hedge_ratio];
    otherwise hold with zero quantities.  With a non-negative entry
    threshold the first two cases exclude each other, so the second needs
    no side condition. *)
Theorem flat_entry_signals (self : Strategy) (pair_name : string)
    (stats : option PairStatistics) :
  position_of self pair_name = None ->
  correlation_threshold self <= cs_correlation (cached_of_stats stats) ->
  let r := calculate_signals self (Recent stats) pair_name in
  let z := cs_current_zscore (cached_of_stats stats) in
  let h := cs_hedge_ratio (cached_of_stats stats) in
  (z_entry_threshold self < z ->
     sig_signal (fst r) = sell_spread /\
     sig_quantity1 (fst r) = 1 /\
     sig_quantity2 (fst r) = - h) /\
  (~ z_entry_threshold self < z -> z < - z_entry_threshold self ->
     sig_signal (fst r) = buy_spread /\
     sig_quantity1 (fst r) = - (1) /\
     sig_quantity2 (fst r) = h) /\
  (0 <= z_entry_threshold self -> z < - z_entry_threshold self ->
     sig_signal (fst r) = buy_spread /\
     sig_quantity1 (fst r) = - (1) /\
     sig_quantity2 (fst r) = h) /\
  (~ z_entry_threshold self < z -> ~ z < - z_entry_threshold self ->
     sig_signal (fst r) = hold /\
     sig_quantity1 (fst r) = 0 /\
     sig_quantity2 (fst r) = 0) /\
  position_of (snd r) pair_name = None.
Proof.
  intros Hpos Hc r z h.
  pose proof (calculate_signals_passed self pair_name stats Hc) as Hd.
  cbv zeta in Hd. rewrite Hpos in Hd. unfold decide_signal in Hd.
  fold r z h in Hd.
  assert (Hbuy : ~ z_entry_threshold self < z -> z < - z_entry_threshold self ->
                 sig_signal (fst r) = buy_spread /\
                 sig_quantity1 (fst r) = - (1) /\
                 sig_quantity2 (fst r) = h).
  { intros Hn Hz.
    destruct (Qltb (z_entry_threshold self) z) eqn:E.
    - apply Qltb_true in E. contradiction.
    - apply Qltb_true in Hz. rewrite Hz in Hd. injection Hd as H1 H2 H3; repeat split; assumption. }
  split; [|split; [|split; [|split]]].
  - intros Hz. apply Qltb_true in Hz. rewrite Hz in Hd. injection Hd as H1 H2 H3; repeat split; assumption.
  - exact Hbuy.
  - intros H0 Hz. apply Hbuy; [|exact Hz].
    intros Hgt.
    assert (Hneg : - z_entry_threshold self <= 0).
    { change (- z_entry_threshold self <= - 0). now apply Qopp_le_compat. }
    apply (Qlt_irrefl z).
    apply (Qlt_le_trans _ _ _ Hz).
    apply (Qle_trans _ 0); [exact Hneg|].
    apply (Qle_trans _ _ _ H0). now apply Qlt_le_weak.
  - intros Hn1 Hn2.
    destruct (Qltb (z_entry_threshold self) z) eqn:E1.
    + apply Qltb_true in E1. contradiction.
    + destruct (Qltb z (- z_entry_threshold self)) eqn:E2.
      * apply Qltb_true in E2. contradiction.
      * injection Hd as H1 H2 H3; repeat split; assumption.
  - unfold r. rewrite calculate_signals_position. exact Hpos.
Qed.

Lemma flat_entry_signals_witness :
  let r := calculate_signals (Strategy_init empty_config)
             (Recent (Some (sample_stats (25 # 10) (9 # 10)))) "BTC-ETH" in
  sig_signal (fst r) = sell_spread /\
  sig_quantity1 (fst r) = 1 /\
  sig_quantity2 (fst r) = - (2).
Proof.
  intros r.
  refine (proj1 (flat_entry_signals (Strategy_init empty_config) "BTC-ETH"
                   (Some (sample_stats (25 # 10) (9 # 10))) _ _) _).
  - reflexivity.
  - unfold Qle; simpl; lia.
  - unfold Qlt; simpl; lia.
Defined.

End StrategyFacts.

(** ** Position ledger *)

Module LedgerFacts.
Import Dynamic Positions Scenarios.

Lemma well_formed_init : well_formed PositionManager_init.
Proof. intros k p H. simpl in H. now rewrite lookup_empty in H. Qed.

Lemma well_formed_insert (pm : PositionManager) (k : string) (p : Position) :
  well_formed pm ->
  pair_name p = k ->
  (is_closed p = false -> pnl p = 0) ->
  well_formed {| positions := <[k := p]> (positions pm) |}.
Proof.
  intros Hwf Hk Hp k' p' H. simpl in H.
  destruct (decide (k = k')) as [<-|Hne].
  - rewrite lookup_insert_eq in H. injection H as <-. auto.
  - rewrite lookup_insert_ne in H by exact Hne. now apply Hwf.
Qed.

Lemma well_formed_open (pm : PositionManager) (n a1 a2 : string)
    (q1 q2 z : Q) (p1 p2 : option Q) (t : Z) :
  well_formed pm -> well_formed (fst (open_position pm n a1 a2 q1 q2 z p1 p2 t)).
Proof.
  intros Hwf. unfold open_position.
  destruct (positions pm !! n) as [existing|] eqn:E.
  - destruct (negb (is_closed existing)); simpl; [exact Hwf|].
    now apply well_formed_insert.
  - simpl. now apply well_formed_insert.
Qed.

(** The two ways [close] ends.  With four prices that are numbers it
    returns, having realized the profit and loss; with a price that is
    [None] it raises a TypeError after the exit fields have been written. *)
Lemma close_returns (p : Position) (a1 a2 e1 e2 : Q) (t : Z) :
  entry_price1 p = Some a1 -> entry_price2 p = Some a2 ->
  close p (Some e1) (Some e2) t
  = (realize (record_exit p (Some e1) (Some e2) t)
       ((e1 - a1) * quantity1 p + (e2 - a2) * quantity2 p),
     Normal tt).
Proof. intros H1 H2. unfold close. rewrite H1, H2. reflexivity. Qed.

Lemma close_raises (p : Position) (e1 e2 : option Q) (t : Z) :
  e1 = None \/ e2 = None \/ entry_price1 p = None \/ entry_price2 p = None ->
  exists message : string,
    close p e1 e2 t = (record_exit p e1 e2 t, Raised message).
Proof.
  intros H. unfold close.
  destruct e1 as [x1|], (entry_price1 p) as [a1|]; cbn [py_sub];
    try (eexists; reflexivity).
  destruct e2 as [x2|], (entry_price2 p) as [a2|]; cbn [py_sub];
    try (eexists; reflexivity).
  destruct H as [H|[H|[H|H]]]; discriminate.
Qed.

(** However [close] ends, the object keeps its pair name, and it is closed
    exactly when the call returned; when the call raised, the profit and
    loss is the one it had. *)
Lemma close_cases (p : Position) (e1 e2 : option Q) (t : Z) :
  pair_name (fst (close p e1 e2 t)) = pair_name p /\
  ((snd (close p e1 e2 t) = Normal tt /\ is_closed (fst (close p e1 e2 t)) = true)
   \/
   (exists message : string,
      snd (close p e1 e2 t) = Raised message /\
      fst (close p e1 e2 t) = record_exit p e1 e2 t)).
Proof.
  unfold close.
  destruct (py_sub e1 (entry_price1 p)) as [d1|m1].
  - destruct (py_sub e2 (entry_price2 p)) as [d2|m2].
    + split; [reflexivity|]. left. now split.
    + split; [reflexivity|]. right. exists m2. now split.
  - split; [reflexivity|]. right. exists m1. now split.
Qed.

Lemma well_formed_close (pm : PositionManager) (n : string)
    (e1 e2 : option Q) (t : Z) :
  well_formed pm -> well_formed (fst (close_position pm n e1 e2 t)).
Proof.
  intros Hwf. unfold close_position.
  destruct (positions pm !! n) as [p|] eqn:E; [|exact Hwf].
  destruct (is_closed p) eqn:Ec; simpl; [exact Hwf|].
  destruct (close_cases p e1 e2 t) as [Hname Hcases].
  destruct (close p e1 e2 t) as [after ended]. cbn [fst snd] in *.
  apply well_formed_insert; [exact Hwf| |].
  - rewrite Hname. now apply Hwf.
  - destruct Hcases as [[_ Hc]|(m & _ & ->)].
    + rewrite Hc. discriminate.
    + intros _. cbn [record_exit pnl]. now apply (Hwf n p E).
Qed.

Lemma well_formed_fold (ops : list LedgerOp) (pm : PositionManager) :
  well_formed pm -> well_formed (fold_left apply_op ops pm).
Proof.
  revert pm. induction ops as [|op ops IH]; intros pm Hwf; simpl; [exact Hwf|].
  apply IH. destruct op; simpl.
  - now apply well_formed_open.
  - now apply well_formed_close.
Qed.

Lemma well_formed_run (ops : list LedgerOp) : well_formed (run_ops ops).
Proof. apply well_formed_fold, well_formed_init. Qed.

(** C5: when the ledger holds a non-closed position for the pair,
    [open_position] returns that very position and the ledger is the same
    afterwards, whatever prices and quantities the call carries; hence a
    second [open_position] right after a first one returns the first
    position again; and in every ledger built through the manager's
    methods two stored positions with the same pair name are one and the
    same entry, so a pair name has at most one non-closed position. *)
Theorem open_position_refuses (pm : PositionManager) (name : string)
    (existing : Position) :
  positions pm !! name = Some existing ->
  is_closed existing = false ->
  (forall (a1 a2 : string) (q1 q2 z : Q) (p1 p2 : option Q) (t : Z),
     open_position pm name a1 a2 q1 q2 z p1 p2 t = (pm, existing)) /\
  (forall (pm0 : PositionManager) (a1 a2 b1 b2 : string)
          (q1 q2 z q1' q2' z' : Q) (p1 p2 p1' p2' : option Q) (t t' : Z),
     let first := open_position pm0 name a1 a2 q1 q2 z p1 p2 t in
     open_position (fst first) name b1 b2 q1' q2' z' p1' p2' t' = first) /\
  (forall (ops : list LedgerOp) (k1 k2 : string) (x1 x2 : Position),
     positions (run_ops ops) !! k1 = Some x1 ->
     positions (run_ops ops) !! k2 = Some x2 ->
     pair_name x1 = pair_name x2 ->
     k1 = k2 /\ x1 = x2).
Proof.
  intros Hlook Hopen. split; [|split].
  - intros. unfold open_position. rewrite Hlook, Hopen. reflexivity.
  - intros pm0 a1 a2 b1 b2 q1 q2 z q1' q2' z' p1 p2 p1' p2' t t' first.
    subst first. unfold open_position at 2 3.
    destruct (positions pm0 !! name) as [p|] eqn:E.
    + destruct (is_closed p) eqn:Ec; simpl.
      * unfold open_position. simpl. rewrite lookup_insert_eq. reflexivity.
      * unfold open_position. rewrite E, Ec. reflexivity.
    + simpl. unfold open_position. simpl. rewrite lookup_insert_eq. reflexivity.
  - intros ops k1 k2 x1 x2 H1 H2 Hn.
    destruct (well_formed_run ops k1 x1 H1) as [E1 _].
    destruct (well_formed_run ops k2 x2 H2) as [E2 _].
    assert (k1 = k2) as -> by congruence.
    split; [reflexivity | congruence].
Qed.

Lemma open_position_refuses_witness :
  open_position one_open "BTC-ETH" "BTC" "ETH" 5 (- (7)) 3
    (Some 120) (Some 60) 2000%Z
  = (one_open,
     Position_init "BTC-ETH" "BTC" "ETH" 1 (- (2)) (21 # 10)
       (Some 100) (Some 50) 1000%Z).
Proof.
  refine (proj1 (open_position_refuses one_open "BTC-ETH"
                   (Position_init "BTC-ETH" "BTC" "ETH" 1 (- (2)) (21 # 10)
                      (Some 100) (Some 50) 1000%Z) _ _) _ _ _ _ _ _ _ _).
  - vm_compute. reflexivity.
  - reflexivity.
Defined.

(** C8: for entry and exit prices that are numbers, [close] returns
    normally, sets the profit and loss to
    [(exit_price1-entry_price1)*quantity1 + (exit_price2-entry_price2)*quantity2]
    and marks the position closed; a fresh position has profit and loss 0
    and is open, and so has every open position in a ledger built through
    the manager's methods; closing an open position through the ledger
    stores exactly the closed object; and with quantities 1 and -2, entries
    100 and 50, exits 110 and 55 the realized profit and loss is 0.  The
    prices are numbers in every call the type annotations allow; should one
    of the four be [None], [close] raises instead: the exit fields are
    written, but the position stays open with the profit and loss it had. *)
Theorem close_realizes_pnl :
  (forall (p : Position) (a1 a2 e1 e2 : Q) (t : Z),
     entry_price1 p = Some a1 -> entry_price2 p = Some a2 ->
     let closed := fst (close p (Some e1) (Some e2) t) in
     snd (close p (Some e1) (Some e2) t) = Normal tt
     /\ pnl closed = (e1 - a1) * quantity1 p + (e2 - a2) * quantity2 p
     /\ is_closed closed = true
     /\ exit_price1 closed = Some e1
     /\ exit_price2 closed = Some e2) /\
  (forall (n a1 a2 : string) (q1 q2 z : Q) (p1 p2 : option Q) (t : Z),
     pnl (Position_init n a1 a2 q1 q2 z p1 p2 t) = 0 /\
     is_closed (Position_init n a1 a2 q1 q2 z p1 p2 t) = false) /\
  (forall (ops : list LedgerOp) (k : string) (p : Position),
     positions (run_ops ops) !! k = Some p ->
     is_closed p = false -> pnl p = 0) /\
  (forall (pm : PositionManager) (k : string) (p : Position)
          (a1 a2 e1 e2 : Q) (t : Z),
     positions pm !! k = Some p ->
     is_closed p = false ->
     entry_price1 p = Some a1 -> entry_price2 p = Some a2 ->
     let closed := fst (close p (Some e1) (Some e2) t) in
     close_position pm k (Some e1) (Some e2) t
       = ({| positions := <[k := closed]> (positions pm) |},
          Normal (Some closed))) /\
  (forall (n a1 a2 : string) (z : Q) (t t' : Z),
     pnl (fst (close (Position_init n a1 a2 1 (- (2)) z (Some 100) (Some 50) t)
                 (Some 110) (Some 55) t')) = 0) /\
  (forall (p : Position) (e1 e2 : option Q) (t : Z),
     e1 = None \/ e2 = None \/ entry_price1 p = None \/ entry_price2 p = None ->
     (exists message : string, snd (close p e1 e2 t) = Raised message) /\
     is_closed (fst (close p e1 e2 t)) = is_closed p /\
     pnl (fst (close p e1 e2 t)) = pnl p /\
     exit_price1 (fst (close p e1 e2 t)) = e1 /\
     exit_price2 (fst (close p e1 e2 t)) = e2).
Proof.
  split; [|split; [|split; [|split; [|split]]]].
  - intros p a1 a2 e1 e2 t H1 H2 closed. subst closed.
    rewrite (close_returns p a1 a2 e1 e2 t H1 H2).
    repeat split; reflexivity.
  - intros. split; reflexivity.
  - intros ops k p H Hopen. now apply (well_formed_run ops k p H).
  - intros pm k p a1 a2 e1 e2 t H Hopen H1 H2 closed. subst closed.
    unfold close_position. rewrite H, Hopen.
    rewrite (close_returns p a1 a2 e1 e2 t H1 H2). reflexivity.
  - intros. reflexivity.
  - intros p e1 e2 t H.
    destruct (close_raises p e1 e2 t H) as [message Hm]. rewrite Hm.
    split; [now exists message|]. repeat split; reflexivity.
Qed.

Lemma close_realizes_pnl_witness :
  pnl (Position_init "BTC-ETH" "BTC" "ETH" 1 (- (2)) (21 # 10)
         (Some 100) (Some 50) 1000%Z) = 0
  /\ snd (close_position one_open "BTC-ETH" (Some 110) (Some 55) 2000%Z)
     = Normal
         (Some (fst (close (Position_init "BTC-ETH" "BTC" "ETH" 1 (- (2))
                              (21 # 10) (Some 100) (Some 50) 1000%Z)
                       (Some 110) (Some 55) 2000%Z))).
Proof.
  destruct close_realizes_pnl as (_ & _ & Hopen & Hclose & _).
  split.
  - apply (Hopen [OpOpen "BTC-ETH" "BTC" "ETH" 1 (- (2)) (21 # 10)
                    (Some 100) (Some 50) 1000%Z]
             "BTC-ETH").
    + vm_compute. reflexivity.
    + reflexivity.
  - rewrite (Hclose one_open "BTC-ETH"
               (Position_init "BTC-ETH" "BTC" "ETH" 1 (- (2)) (21 # 10)
                  (Some 100) (Some 50) 1000%Z) 100 50).
    + reflexivity.
    + vm_compute. reflexivity.
    + reflexivity.
    + reflexivity.
    + reflexivity.
Defined.

(** Entries are never removed, and an operation on another pair does not
    create one: a pair has an entry exactly when some earlier operation
    recorded a position for it. *)
Lemma apply_op_other (pm : PositionManager) (op : LedgerOp) (name : string) :
  op_pair op <> name ->
  positions (apply_op pm op) !! name = positions pm !! name.
Proof.
  intros Hne. destruct op as [n a1 a2 q1 q2 z p1 p2 t|n e1 e2 t];
    simpl in Hne; simpl.
  - unfold open_position. destruct (positions pm !! n) as [p|].
    + destruct (negb (is_closed p)); simpl; [reflexivity|].
      now rewrite lookup_insert_ne.
    + simpl. now rewrite lookup_insert_ne.
  - unfold close_position. destruct (positions pm !! n) as [p|]; [|reflexivity].
    destruct (is_closed p); simpl; [reflexivity|].
    destruct (close p e1 e2 t) as [after ended]. simpl.
    now rewrite lookup_insert_ne.
Qed.

Lemma never_recorded_absent (ops : list LedgerOp) (name : string) :
  Forall (fun op => op_pair op <> name) ops ->
  positions (run_ops ops) !! name = None.
Proof.
  unfold run_ops.
  assert (H : forall pm, positions pm !! name = None ->
                Forall (fun op => op_pair op <> name) ops ->
                positions (fold_left apply_op ops pm) !! name = None).
  { induction ops as [|op ops IH]; intros pm Hpm Hall; [exact Hpm|].
    simpl. apply Forall_cons in Hall as [Hop Hall].
    apply IH; [|exact Hall]. now rewrite apply_op_other. }
  intros Hall. apply H; [apply lookup_empty | exact Hall].
Qed.

(** C10: for a pair name under which the ledger holds nothing, which by
    [never_recorded_absent] is the case of a pair that never had a position
    recorded, [close_position] returns [None] and the ledger is unchanged. *)
Theorem close_position_unknown_pair (pm : PositionManager) (name : string)
    (e1 e2 : option Q) (t : Z) :
  positions pm !! name = None ->
  close_position pm name e1 e2 t = (pm, Normal None).
Proof. intros H. unfold close_position. now rewrite H. Qed.

Lemma close_position_unknown_pair_witness :
  close_position one_open "SOL-AVAX" (Some 10) (Some 20) 3000%Z
  = (one_open, Normal None).
Proof.
  apply close_position_unknown_pair. vm_compute. reflexivity.
Defined.

End LedgerFacts.

(** ** Orders and execution *)

Module ExecutionFacts.
Import RiskManagement Signals Dynamic Execution Scenarios.

Lemma status_update_status (o : Orders.Order) (s : Orders.OrderStatus) :
  Orders.status (Orders.update_status o s) = s.
Proof. reflexivity. Qed.


(** Opens [execute_signal] for a signal whose kind is known, up to the
    answers of the exchange. *)
Ltac open_execute_signal :=
  unfold execute_signal, get_ticker, place_market_order;
  cbn [history record_call ticker_last market_order].


Lemma history_two {A} (h : list A) (a b : A) :
  (h ++ [a]) ++ [b] = h ++ [a; b].
Proof. now rewrite <- app_assoc. Qed.

Lemma history_three {A} (h : list A) (a b c : A) :
  ((h ++ [a]) ++ [b]) ++ [c] = h ++ [a; b; c].
Proof. now rewrite <- !app_assoc. Qed.

Lemma history_four {A} (h : list A) (a b c d : A) :
  (((h ++ [a]) ++ [b]) ++ [c]) ++ [d] = h ++ [a; b; c; d].
Proof. now rewrite <- !app_assoc. Qed.

(** [execute_signal] once both tickers are available and both legs have
    been answered: the order with both fills recorded is marked FILLED, the
    position update is made with the fill prices the order holds, and the
    call reports success when that update returns; when it raises, the
    order is marked REJECTED and the call reports the exception. *)
Lemma execute_signal_answered (eng : ExecutionEngine) (signal : Signal)
    (pair_name : string) (balance : Q) (now : Z) (p1 p2 q1 q2 : Q)
    (x1 x2 : ExchangeOrder) :
  let ex := exchange eng in
  let h := history ex in
  let a1 := asset1_of signal in
  let a2 := asset2_of signal in
  let leg1 := PlaceMarketOrder a1 (side_of q1) (Qabs q1) in
  let leg2 := PlaceMarketOrder a2 (side_of q2) (Qabs q2) in
  let oid :=
    Orders.make_order_id (S (Orders._order_counter (order_manager eng))) now in
  let filled :=
    Orders.update_status
      (Orders.set_fill2
         (Orders.set_fill1
            (Orders.Order_init oid pair_name a1 a2 (side_of q1) (side_of q2)
               (Qabs q1) (Qabs q2) None None "market" now)
            (eo_id x1) (fill_quantity x1 (Qabs q1)) (fill_price x1 p1))
         (eo_id x2) (fill_quantity x2 (Qabs q2)) (fill_price x2 p2))
      Orders.FILLED in
  let updated :=
    update_ledger (position_manager eng) (sig_signal signal) pair_name a1 a2
      q1 q2 (sig_zscore signal) (fill_price x1 p1) (fill_price x2 p2) now in
  let r := execute_signal eng signal pair_name balance now in
  sig_signal signal <> hold ->
  ticker_last ex h a1 = Some p1 ->
  ticker_last ex (h ++ [GetTicker a1]) a2 = Some p2 ->
  adjust_quantities (risk_manager eng) (sig_signal signal)
    (sig_quantity1 signal) (sig_quantity2 signal) p1 p2 balance = (q1, q2) ->
  market_order ex (h ++ [GetTicker a1; GetTicker a2])
    a1 (side_of q1) (Qabs q1) = Some x1 ->
  market_order ex (h ++ [GetTicker a1; GetTicker a2; leg1])
    a2 (side_of q2) (Qabs q2) = Some x2 ->
  history (exchange (snd r)) = h ++ [GetTicker a1; GetTicker a2; leg1; leg2] /\
  position_manager (snd r) = fst updated /\
  risk_manager (snd r) = risk_manager eng /\
  match snd updated with
  | Normal _ =>
      fst r = Some {| success := true; order_id := oid; error := None;
                      filled_quantity1 := Some (fill_quantity x1 (Qabs q1));
                      filled_quantity2 := Some (fill_quantity x2 (Qabs q2));
                      filled_price1 := Some (fill_price x1 p1);
                      filled_price2 := Some (fill_price x2 p2) |} /\
      Orders.get_order (order_manager (snd r)) oid = Some filled
  | Raised message =>
      fst r = Some (exception_payload oid message) /\
      Orders.get_order (order_manager (snd r)) oid
        = Some (Orders.update_status filled Orders.REJECTED)
  end.
Proof.
  intros ex h a1 a2 leg1 leg2 oid filled updated r Hsig Ht1 Ht2 Hq Hr1 Hr2.
  rewrite <- history_two in Hr1. rewrite <- history_three in Hr2.
  rewrite <- history_four.
  subst r updated filled oid leg1 leg2. unfold asset1_of, asset2_of in *.
  subst ex h a1 a2.
  open_execute_signal.
  revert Hsig Hq.
  destruct (sig_signal signal) eqn:Es; intros Hsig Hq; [contradiction|..];
    rewrite Ht1, Ht2, Hq;
    cbn [Orders.create_order];
    rewrite Hr1, Hr2;
    unfold fill_price, fill_quantity;
    cbn [Orders.update_status Orders.set_fill1 Orders.set_fill2
         Orders.filled_price1 Orders.filled_price2];
    match goal with
    | |- context [update_ledger ?a ?b ?c ?d ?e ?f ?g ?h ?i ?j ?k] =>
        destruct (update_ledger a b c d e f g h i j k) as [pm [u|message]]
    end;
    cbn [fst snd exchange history position_manager risk_manager order_manager];
    (split; [reflexivity|]); (split; [reflexivity|]); (split; [reflexivity|]);
    (split; [reflexivity | apply lookup_insert_eq]).
Qed.




(** C2, as stated, fails in its last part: leg 1 of the entry signal is
    filled (quantity 1 at price 101) and leg 2 returns nothing, yet the
    returned dictionary is the bare failure payload: it names the order and
    carries an error text, but says neither which leg filled nor the filled
    quantity or price. *)
Lemma failure_payload_omits_fill :
  let r := execute_signal fresh_engine entry_signal "BTC-ETH" 10000 0%Z in
  market_order one_legged_exchange
    [GetTicker "asset1"; GetTicker "asset2"] "asset1" Orders.buy 1
    = Some {| eo_id := Some "X-1"; eo_filled := Some (Some 1);
              eo_price := Some (Some 101) |} /\
  market_order one_legged_exchange
    [GetTicker "asset1"; GetTicker "asset2";
     PlaceMarketOrder "asset1" Orders.buy 1] "asset2" Orders.sell 2 = None /\
  fst r = Some (failure_payload "order_1_0") /\
  filled_quantity1 (failure_payload "order_1_0") = None /\
  filled_price1 (failure_payload "order_1_0") = None.
Proof. vm_compute. repeat split; reflexivity. Qed.

(** C2, amended: when a non-hold signal is executed, both tickers are
    available and exactly one of the two legs returns a result, the
    exchange has been asked for leg 1 and then for leg 2 (leg 2 is attempted
    whatever leg 1 returned), the position manager is unchanged, and the
    returned dictionary holds only [success = False], the order id and a
    fixed error text.  The fill of the leg that went through is not in that
    dictionary; it is recorded on the order stored under that id, which has
    status REJECTED. *)
Theorem asymmetric_fill_rejected (eng : ExecutionEngine) (signal : Signal)
    (pair_name : string) (balance : Q) (now : Z) (p1 p2 q1 q2 : Q)
    (r1 r2 : option ExchangeOrder) :
  let ex := exchange eng in
  let h := history ex in
  let a1 := asset1_of signal in
  let a2 := asset2_of signal in
  let leg1 := PlaceMarketOrder a1 (side_of q1) (Qabs q1) in
  let leg2 := PlaceMarketOrder a2 (side_of q2) (Qabs q2) in
  let oid :=
    Orders.make_order_id (S (Orders._order_counter (order_manager eng))) now in
  let r := execute_signal eng signal pair_name balance now in
  sig_signal signal <> hold ->
  ticker_last ex h a1 = Some p1 ->
  ticker_last ex (h ++ [GetTicker a1]) a2 = Some p2 ->
  adjust_quantities (risk_manager eng) (sig_signal signal)
    (sig_quantity1 signal) (sig_quantity2 signal) p1 p2 balance = (q1, q2) ->
  market_order ex (h ++ [GetTicker a1; GetTicker a2])
    a1 (side_of q1) (Qabs q1) = r1 ->
  market_order ex (h ++ [GetTicker a1; GetTicker a2; leg1])
    a2 (side_of q2) (Qabs q2) = r2 ->
  (is_Some r1 /\ r2 = None) \/ (r1 = None /\ is_Some r2) ->
  fst r = Some (failure_payload oid) /\
  history (exchange (snd r))
    = h ++ [GetTicker a1; GetTicker a2; leg1; leg2] /\
  position_manager (snd r) = position_manager eng /\
  exists o : Orders.Order,
    Orders.get_order (order_manager (snd r)) oid = Some o /\
    Orders.status o = Orders.REJECTED /\
    leg_recorded r1 (Qabs q1) p1 (Orders.exchange_order_id1 o)
      (Orders.filled_quantity1 o) (Orders.filled_price1 o) /\
    leg_recorded r2 (Qabs q2) p2 (Orders.exchange_order_id2 o)
      (Orders.filled_quantity2 o) (Orders.filled_price2 o).
Proof.
  intros ex h a1 a2 leg1 leg2 oid r Hsig Ht1 Ht2 Hq Hr1 Hr2 Hone.
  rewrite <- history_two in Hr1. rewrite <- history_three in Hr2.
  rewrite <- history_four.
  subst r oid leg1 leg2. unfold asset1_of, asset2_of in *. subst ex h a1 a2.
  open_execute_signal.
  revert Hsig Hq.
  destruct (sig_signal signal) eqn:Es; intros Hsig Hq; [contradiction|..];
    rewrite Ht1, Ht2, Hq;
    cbn [Orders.create_order];
    rewrite Hr1, Hr2;
    (destruct Hone as [[[x1 ->] ->]|[-> [x2 ->]]];
     (split; [reflexivity|]); (split; [reflexivity|]); (split; [reflexivity|]);
     eexists; (split; [apply lookup_insert_eq|]);
     repeat split; reflexivity).
Qed.

Lemma asymmetric_fill_rejected_witness :
  let r := execute_signal fresh_engine entry_signal "BTC-ETH" 10000 0%Z in
  fst r = Some (failure_payload "order_1_0") /\
  history (exchange (snd r))
    = [GetTicker "asset1"; GetTicker "asset2";
       PlaceMarketOrder "asset1" Orders.buy 1;
       PlaceMarketOrder "asset2" Orders.sell 2] /\
  position_manager (snd r) = position_manager fresh_engine.
Proof.
  intros r.
  destruct (asymmetric_fill_rejected fresh_engine entry_signal "BTC-ETH"
              10000 0%Z 100 50 1 (- (2))
              (Some {| eo_id := Some "X-1"; eo_filled := Some (Some 1);
                       eo_price := Some (Some 101) |}) None)
    as (H1 & H2 & H3 & _).
  - discriminate.
  - reflexivity.
  - reflexivity.
  - vm_compute. reflexivity.
  - reflexivity.
  - reflexivity.
  - left. split; [eexists; reflexivity | reflexivity].
  - split; [exact H1 | split; [exact H2 | exact H3]].
Defined.

End ExecutionFacts.

(** ** Z-scores *)

Module ZScoreFacts.
Import MathUtils NumericFacts Scenarios.
Local Open Scope nat_scope.

Lemma np_div_returns (a b : npfloat) :
  is_zero b = false -> exists v, np_div a b = Returns v.
Proof.
  intros Hb. destruct b as [|q]; simpl.
  - now exists NaN.
  - simpl in Hb. rewrite Hb. destruct a; eauto.
Qed.

Lemma np_div_never_by_zero (a b : npfloat) :
  np_div a b = Raises DivisionByZero <-> is_zero b = true.
Proof.
  destruct b as [|q]; simpl; [split; discriminate|].
  destruct (Qeq_bool q 0); [tauto|].
  destruct a; split; discriminate.
Qed.


Lemma length_values_int (l : list Z) : length (values (IntSeries l)) = length l.
Proof. apply length_map. Qed.













Section AnyReductions.

Variable np_mean : list Q -> npfloat.
Variable np_std : list Q -> npfloat.







(** The scalar z-score of the pair statistics is guarded the same way: the
    expression of line 83 never divides by zero, and on a spread that is
    not empty the statistics are returned: the unguarded [spread[-1]] of
    line 90 is inside the array. *)
Lemma current_zscore_guarded (spread : list Q) :
  current_zscore np_mean np_std spread <> Raises DivisionByZero /\
  (spread <> [] ->
   exists st : SpreadStatistics,
     spread_statistics np_mean np_std spread = Returns st /\
     last spread = Some (ss_current_spread st)).
Proof.
  assert (Hlast : spread <> [] ->
                  exists x, getitem spread (-1)%Z = Returns x
                            /\ last spread = Some x).
  { intros Hne. destruct (exists_last Hne) as (front & x & ->).
    exists x. split; [|apply last_snoc].
    unfold getitem, py_index. rewrite length_app. simpl length.
    destruct (Z.leb_spec 0 (-1)); [lia|].
    destruct (Z.leb_spec (- Z.of_nat (length front + 1)) (-1)); [|lia].
    replace (Z.to_nat (-1 + Z.of_nat (length front + 1)))
      with (length front) by lia.
    now rewrite list_lookup_middle. }
  split.
  - unfold current_zscore.
    destruct (np_std spread) as [|s] eqn:Estd; [discriminate|].
    destruct (Qltb 0 s) eqn:Epos; [|discriminate].
    destruct (getitem spread (-1)%Z) as [x|f] eqn:Eg.
    + cbn [mbind Outcome_bind]. intros H. apply np_div_never_by_zero in H.
      simpl in H. apply Qeq_bool_iff in H. apply Qltb_true in Epos.
      rewrite H in Epos. exact (Qlt_irrefl _ Epos).
    + cbn [mbind Outcome_bind]. unfold getitem in Eg.
      destruct (py_index _ _) as [k|]; [destruct (spread !! k)|];
        try discriminate Eg; injection Eg as <-; discriminate.
  - intros Hne. destruct (Hlast Hne) as (x & Hx & Hl).
    unfold spread_statistics, current_zscore. rewrite Hx.
    destruct (np_std spread) as [|s] eqn:Estd.
    + cbn [mbind Outcome_bind]. eexists. split; [reflexivity | exact Hl].
    + destruct (Qltb 0 s) eqn:Epos.
      * cbn [mbind Outcome_bind].
        assert (Ez : is_zero (Fin s) = false).
        { simpl. destruct (Qeq_bool s 0) eqn:E; [|reflexivity].
          apply Qeq_bool_iff in E. apply Qltb_true in Epos.
          rewrite E in Epos. destruct (Qlt_irrefl _ Epos). }
        destruct (np_div_returns (np_sub (Fin x) (np_mean spread)) _ Ez)
          as [v Hv].
        rewrite Hv. cbn [mbind Outcome_bind].
        eexists. split; [reflexivity | exact Hl].
      * cbn [mbind Outcome_bind]. eexists. split; [reflexivity | exact Hl].
Qed.

End AnyReductions.


(** Outside the window sizes: a negative window makes the rolling loop
    start at a negative index, and for the one-point series [1.0] and
    [window = -2] reading [series[-2]] is an index error. *)
Lemma outside_window_sizes :
  calculate_zscore sample_mean sample_std (FloatSeries [1%Q]) (Some (-2)%Z)
    = Raises IndexError.
Proof. reflexivity. Qed.

(** On the integer series [0, 4, 3] with window 2 the z-score of the last
    entry, 1/2, is stored as 0; on the same values as floats it is kept. *)
Lemma integer_series_truncates :
  calculate_zscore sample_mean sample_std (IntSeries [0%Z; 4%Z; 3%Z])
    (Some 2%Z) = Returns (IntArray [0%Z; 0%Z; 0%Z]) /\
  exists q : Q,
    calculate_zscore sample_mean sample_std (FloatSeries [0%Q; 4%Q; 3%Q])
      (Some 2%Z) = Returns (FloatArray [Fin 0; Fin 0; Fin q]) /\
    (q == 1 # 2)%Q.
Proof.
  split; [vm_compute; reflexivity|].
  eexists. split; [vm_compute; reflexivity | reflexivity].
Qed.


End ZScoreFacts.

(** * Further properties of the code *)

(** ** Arithmetic used below *)

Module SumFacts.
Import MathUtils NumericFacts.

Lemma Qlen_nonneg (xs : list Q) : 0 <= Qlen xs.
Proof.
  unfold Qlen. change 0 with (inject_Z 0). rewrite <- Zle_Qle. lia.
Qed.

Lemma Qlen_pos (xs : list Q) : xs <> [] -> 0 < Qlen xs.
Proof.
  intros H. unfold Qlen. change 0 with (inject_Z 0). rewrite <- Zlt_Qlt.
  destruct xs; [contradiction | simpl; lia].
Qed.

Lemma fold_Qplus_ge (xs : list Q) :
  forall acc, Forall (fun x => 0 <= x) xs -> acc <= fold_left Qplus xs acc.
Proof.
  induction xs as [|x xs IH]; intros acc Hall; simpl; [apply Qle_refl|].
  apply Forall_cons in Hall as [Hx Hall].
  apply (Qle_trans _ (acc + x)); [lra | now apply IH].
Qed.

Lemma fold_Qplus_le (xs : list Q) :
  forall acc, Forall (fun x => x <= 0) xs -> fold_left Qplus xs acc <= acc.
Proof.
  induction xs as [|x xs IH]; intros acc Hall; simpl; [apply Qle_refl|].
  apply Forall_cons in Hall as [Hx Hall].
  apply (Qle_trans _ (acc + x)); [now apply IH | lra].
Qed.

(** A non-empty sum of positive numbers is positive. *)
Lemma Qsum_pos (xs : list Q) :
  xs <> [] -> Forall (fun x => 0 < x) xs -> 0 < Qsum xs.
Proof.
  intros Hne Hall. destruct xs as [|x xs]; [contradiction|].
  apply Forall_cons in Hall as [Hx Hall]. unfold Qsum. simpl.
  apply (Qlt_le_trans _ (0 + x)); [lra|].
  apply fold_Qplus_ge. eapply Forall_impl; [exact Hall|].
  intros y Hy. now apply Qlt_le_weak.
Qed.

(** A non-empty sum of negative numbers is negative. *)
Lemma Qsum_neg (xs : list Q) :
  xs <> [] -> Forall (fun x => x < 0) xs -> Qsum xs < 0.
Proof.
  intros Hne Hall. destruct xs as [|x xs]; [contradiction|].
  apply Forall_cons in Hall as [Hx Hall]. unfold Qsum. simpl.
  apply (Qle_lt_trans _ (0 + x)); [|lra].
  apply fold_Qplus_le. eapply Forall_impl; [exact Hall|].
  intros y Hy. now apply Qlt_le_weak.
Qed.

Lemma filter_Forall {A} (f : A -> bool) (l : list A) :
  Forall (fun x => f x = true) (List.filter f l).
Proof.
  apply Forall_forall. intros x Hx. apply list_elem_of_In in Hx.
  now apply filter_In in Hx.
Qed.

Lemma existsb_filter_nonempty {A} (f : A -> bool) (l : list A) :
  existsb f l = true -> List.filter f l <> [].
Proof.
  intros H. apply existsb_exists in H as (x & Hin & Hf).
  intros E. assert (Hx : In x (List.filter f l)) by (apply filter_In; tauto).
  rewrite E in Hx. contradiction.
Qed.

Lemma filter_length_le {A} (f : A -> bool) (l : list A) :
  (length (List.filter f l) <= length l)%nat.
Proof.
  induction l as [|x l IH]; simpl; [lia|]. destruct (f x); simpl; lia.
Qed.

End SumFacts.

(** ** Risk policy *)

Module RiskPolicyFacts.
Import RiskManagement RiskPolicy NumericFacts SumFacts Scenarios.

(** X1: the stop-loss test is direction-aware.  For a short-spread entry
    ([entry_zscore > 0]) it fires exactly when the current z-score is above
    [stop_loss_z]; for a long-spread entry ([entry_zscore < 0]) exactly when
    it is below [-stop_loss_z]; for an entry z-score of 0 it never fires. *)
Theorem stop_loss_direction_aware (rm : RiskManager) (cur entry : Q) :
  (0 < entry -> (check_stop_loss rm cur entry = true <-> stop_loss_z rm < cur)) /\
  (entry < 0 -> (check_stop_loss rm cur entry = true <-> cur < - stop_loss_z rm)) /\
  (entry == 0 -> check_stop_loss rm cur entry = false).
Proof.
  pose proof (RiskFacts.check_stop_loss_spec rm cur entry) as Hspec.
  split; [|split].
  - intros He. rewrite Hspec. split; [|tauto].
    intros [[_ H]|[H _]]; [exact H | lra].
  - intros He. rewrite Hspec. split; [|tauto].
    intros [[H _]|[_ H]]; [lra | exact H].
  - intros He. apply not_true_is_false. intros E.
    apply Hspec in E. destruct E as [[H _]|[H _]]; lra.
Qed.

Lemma stop_loss_direction_aware_witness :
  check_stop_loss (RiskManager_init empty_config) (32 # 10) (21 # 10) = true.
Proof.
  apply (proj1 (stop_loss_direction_aware (RiskManager_init empty_config)
                  (32 # 10) (21 # 10))).
  - unfold Qlt; simpl; lia.
  - unfold Qlt; simpl; lia.
Defined.

Lemma calculate_risk_metrics_nonempty (trades : list (option Q)) :
  trades <> [] ->
  calculate_risk_metrics trades =
  let pnls := map (default 0) trades in
  let profits := List.filter (fun p => Qltb 0 p) pnls in
  let losses := List.filter (fun p => Qltb p 0) pnls in
  let avg_profit :=
    if existsb (fun p => Qltb 0 p) pnls
    then MathUtils.Qsum profits / MathUtils.Qlen profits else 0 in
  let avg_loss :=
    if existsb (fun p => Qltb p 0) pnls
    then MathUtils.Qsum losses / MathUtils.Qlen losses else 0 in
  Some {| win_rate :=
            inject_Z (Z.of_nat (length (List.filter
                        (fun t => Qltb 0 (default 0 t)) trades)))
            / inject_Z (Z.of_nat (length trades));
          avg_profit := avg_profit;
          avg_loss := avg_loss;
          profit_loss_ratio :=
            if negb (Qeq_bool avg_loss 0)
            then Qabs (safe_divide avg_profit avg_loss 0) else 0;
          total_trades := length trades |}.
Proof. intros H. destruct trades; [contradiction | reflexivity]. Qed.

(** X4: [calculate_risk_metrics] returns the empty dictionary for no
    trades; otherwise it counts every trade, its win rate lies between 0
    and 1, the average profit is positive when some trade won and 0
    otherwise, the average loss is negative when some trade lost and 0
    otherwise, and the profit/loss ratio is never negative. *)
Theorem risk_metrics_ranges (trades : list (option Q)) :
  (trades = [] -> calculate_risk_metrics trades = None) /\
  (trades <> [] ->
   exists m : RiskMetrics,
     calculate_risk_metrics trades = Some m /\
     total_trades m = length trades /\
     0 <= win_rate m <= 1 /\
     (if existsb (fun p => Qltb 0 p) (map (default 0) trades)
      then 0 < avg_profit m else avg_profit m = 0) /\
     (if existsb (fun p => Qltb p 0) (map (default 0) trades)
      then avg_loss m < 0 else avg_loss m = 0) /\
     0 <= profit_loss_ratio m).
Proof.
  split; [intros ->; reflexivity|].
  intros Hne.
  assert (Hlen : (0 < length trades)%nat)
    by (destruct trades; [contradiction | simpl; lia]).
  eexists. split; [now apply calculate_risk_metrics_nonempty|].
  cbn [total_trades win_rate avg_profit avg_loss profit_loss_ratio].
  split; [reflexivity|]. split; [|split; [|split]].
  - assert (Hpos : 0 < inject_Z (Z.of_nat (length trades))).
    { change 0 with (inject_Z 0). rewrite <- Zlt_Qlt. lia. }
    split.
    + apply Qle_shift_div_l; [exact Hpos|]. rewrite Qmult_0_l.
      change 0 with (inject_Z 0). rewrite <- Zle_Qle. lia.
    + apply Qle_shift_div_r; [exact Hpos|]. rewrite Qmult_1_l.
      rewrite <- Zle_Qle. apply inj_le. apply filter_length_le.
  - destruct (existsb _ _) eqn:E; [|reflexivity].
    apply Qlt_shift_div_l.
    + apply Qlen_pos. now apply existsb_filter_nonempty.
    + rewrite Qmult_0_l. apply Qsum_pos.
      * now apply existsb_filter_nonempty.
      * eapply Forall_impl; [apply filter_Forall|].
        intros x Hx. now apply Qltb_true.
  - destruct (existsb (fun p => Qltb p 0) _) eqn:E; [|reflexivity].
    apply Qlt_shift_div_r.
    + apply Qlen_pos. now apply existsb_filter_nonempty.
    + rewrite Qmult_0_l. apply Qsum_neg.
      * now apply existsb_filter_nonempty.
      * eapply Forall_impl; [apply filter_Forall|].
        intros x Hx. now apply Qltb_true.
  - destruct (negb _); [apply Qabs_nonneg | apply Qle_refl].
Qed.

Lemma risk_metrics_ranges_witness :
  exists m : RiskMetrics,
    calculate_risk_metrics [Some 5; Some (- (3)); None; Some 1] = Some m /\
    total_trades m = 4%nat.
Proof.
  destruct (proj2 (risk_metrics_ranges [Some 5; Some (- (3)); None; Some 1]))
    as (m & Hm & Hn & _).
  - discriminate.
  - exists m. split; [exact Hm | exact Hn].
Defined.

End RiskPolicyFacts.

(** ** Signal engine state *)

Module StrategyStateFacts.
Import RiskManagement Signals PairsTrading NumericFacts StrategyFacts Scenarios.

Lemma update_position_settings (self : Strategy) (pair_name : string)
    (signal : SignalType) (q1 q2 z : Q) :
  let s := update_position self pair_name signal q1 q2 z in
  z_entry_threshold s = z_entry_threshold self /\
  z_exit_threshold s = z_exit_threshold self /\
  correlation_threshold s = correlation_threshold self /\
  risk_manager s = risk_manager self.
Proof. destruct signal; repeat split; reflexivity. Qed.

Lemma calculate_signals_settings (self : Strategy) (data : PairData)
    (pair_name : string) :
  let s := snd (calculate_signals self data pair_name) in
  z_entry_threshold s = z_entry_threshold self /\
  z_exit_threshold s = z_exit_threshold self /\
  correlation_threshold s = correlation_threshold self /\
  risk_manager s = risk_manager self.
Proof.
  destruct data as [ | | |stats]; simpl; try (repeat split; reflexivity).
  destruct (Qltb _ _); simpl; [repeat split; reflexivity|].
  destruct (decide_signal _ _ _) as [[s q1] q2]. simpl.
  repeat split; reflexivity.
Qed.

Lemma update_position_lookup (self : Strategy) (pair_name : string)
    (signal : SignalType) (q1 q2 z : Q) :
  position_of (update_position self pair_name signal q1 q2 z) pair_name
  = match signal with
    | buy_spread | sell_spread =>
        Some {| pr_quantity1 := q1; pr_quantity2 := q2; pr_entry_zscore := z |}
    | close => None
    | _ => position_of self pair_name
    end.
Proof.
  unfold position_of, update_position.
  destruct signal; simpl; rewrite lookup_insert_eq; try reflexivity;
    now destruct (pair_states self !! pair_name).
Qed.

Lemma update_position_other (self : Strategy) (p q : string)
    (signal : SignalType) (q1 q2 z : Q) :
  p <> q ->
  position_of (update_position self p signal q1 q2 z) q = position_of self q.
Proof.
  intros Hne. unfold position_of, update_position.
  destruct signal; simpl; now rewrite lookup_insert_ne.
Qed.

(** X5: [update_position] is the only writer of a pair's position and acts
    on that pair alone: after a buy_spread or sell_spread the pair holds
    exactly the given quantities and entry z-score, after a close it holds
    nothing, any other signal leaves it as it was, and the position of
    every other pair is untouched. *)
Theorem update_position_writes_one_pair (self : Strategy) (p : string)
    (signal : SignalType) (q1 q2 z : Q) :
  let s := update_position self p signal q1 q2 z in
  (is_entry signal = true ->
   position_of s p
     = Some {| pr_quantity1 := q1; pr_quantity2 := q2; pr_entry_zscore := z |}) /\
  (signal = close -> position_of s p = None) /\
  (is_entry signal = false -> signal <> close ->
   position_of s p = position_of self p) /\
  (forall q : string, p <> q -> position_of s q = position_of self q).
Proof.
  intros s. subst s. split; [|split; [|split]].
  - intros He. rewrite update_position_lookup. now destruct signal.
  - intros ->. now rewrite update_position_lookup.
  - intros He Hc. rewrite update_position_lookup.
    destruct signal; try reflexivity; try discriminate. contradiction.
  - intros q Hne. now apply update_position_other.
Qed.

Lemma update_position_writes_one_pair_witness :
  position_of (update_position short_holder "BTC-ETH" close 0 0 0) "BTC-ETH"
    = None /\
  position_of (update_position short_holder "SOL-AVAX" buy_spread
                 (- (1)) 3 (- (22 # 10))) "BTC-ETH"
    = position_of short_holder "BTC-ETH".
Proof.
  split.
  - apply (proj1 (proj2 (update_position_writes_one_pair short_holder
                           "BTC-ETH" close 0 0 0))). reflexivity.
  - apply (proj2 (proj2 (proj2 (update_position_writes_one_pair short_holder
                           "SOL-AVAX" buy_spread (- (1)) 3 (- (22 # 10)))))).
    discriminate.
Defined.

(** X6: the signal a cycle can emit is fixed by the state of the pair,
    whatever the data: with no position held [calculate_signals] answers
    hold, sell_spread or buy_spread and never close; with a position held it
    answers hold or close and never opens a second position. *)
Theorem signals_follow_state (self : Strategy) (data : PairData)
    (pair_name : string) :
  let sg := fst (calculate_signals self data pair_name) in
  (position_of self pair_name = None ->
   sig_signal sg = hold \/ sig_signal sg = sell_spread
   \/ sig_signal sg = buy_spread) /\
  (position_of self pair_name <> None ->
   sig_signal sg = hold \/ sig_signal sg = close).
Proof.
  intros sg. subst sg.
  destruct data as [ | | |stats];
    try (split; intros _; left; reflexivity).
  destruct (Qltb (cs_correlation (cached_of_stats stats))
              (correlation_threshold self)) eqn:Eg.
  - unfold calculate_signals. cbv zeta. rewrite Eg.
    split; intros _; left; reflexivity.
  - apply Qltb_false in Eg.
    pose proof (calculate_signals_passed self pair_name stats Eg) as Hd.
    cbv zeta in Hd. unfold decide_signal in Hd.
    split; intros Hpos.
    + rewrite Hpos in Hd. revert Hd.
      destruct (Qltb (z_entry_threshold self)
                  (cs_current_zscore (cached_of_stats stats)));
        [|destruct (Qltb (cs_current_zscore (cached_of_stats stats))
                     (- z_entry_threshold self))];
        intros Hd; injection Hd as H1 _ _;
        first [left; exact H1 | right; left; exact H1 | right; right; exact H1
              | right; exact H1].
    + destruct (position_of self pair_name) as [pos|]; [|contradiction].
      revert Hd.
      destruct (check_stop_loss (risk_manager self)
                  (cs_current_zscore (cached_of_stats stats))
                  (pr_entry_zscore pos));
        [|destruct (Qltb (Qabs (cs_current_zscore (cached_of_stats stats)))
                     (z_exit_threshold self))];
        intros Hd; injection Hd as H1 _ _;
        first [left; exact H1 | right; left; exact H1 | right; right; exact H1
              | right; exact H1].
Qed.

Lemma signals_follow_state_witness :
  sig_signal (fst (calculate_signals short_holder
                     (Recent (Some (sample_stats (- (25 # 10)) (9 # 10))))
                     "BTC-ETH")) = hold
  \/ sig_signal (fst (calculate_signals short_holder
                        (Recent (Some (sample_stats (- (25 # 10)) (9 # 10))))
                        "BTC-ETH")) = close.
Proof.
  apply (proj2 (signals_follow_state short_holder
                  (Recent (Some (sample_stats (- (25 # 10)) (9 # 10))))
                  "BTC-ETH")).
  discriminate.
Defined.

(** X7: an entry and the exit that follows it cancel out.  Starting flat,
    once the entry signal of one cycle has been written with
    [update_position], a later cycle that answers close asks for exactly the
    negated quantities of that entry signal, and writing the close with
    [update_position] leaves the pair flat again. *)
Theorem close_offsets_entry (self : Strategy) (pair_name : string)
    (stats1 stats2 : option PairStatistics) :
  let r1 := calculate_signals self (Recent stats1) pair_name in
  let entry := fst r1 in
  let held := update_position (snd r1) pair_name (sig_signal entry)
                (sig_quantity1 entry) (sig_quantity2 entry)
                (sig_zscore entry) in
  let r2 := calculate_signals held (Recent stats2) pair_name in
  let exit := fst r2 in
  is_entry (sig_signal entry) = true ->
  correlation_threshold self <= cs_correlation (cached_of_stats stats2) ->
  sig_signal exit = close ->
  sig_quantity1 exit = - sig_quantity1 entry /\
  sig_quantity2 exit = - sig_quantity2 entry /\
  position_of (update_position (snd r2) pair_name close
                 (sig_quantity1 exit) (sig_quantity2 exit) (sig_zscore exit))
    pair_name = None.
Proof.
  intros r1 entry held r2 exit Hentry Hgate Hclose.
  assert (Hheld : position_of held pair_name
                  = Some {| pr_quantity1 := sig_quantity1 entry;
                            pr_quantity2 := sig_quantity2 entry;
                            pr_entry_zscore := sig_zscore entry |}).
  { unfold held. rewrite update_position_lookup.
    destruct (sig_signal entry); try discriminate; reflexivity. }
  assert (Hthr : correlation_threshold held = correlation_threshold self).
  { unfold held.
    destruct (update_position_settings (snd r1) pair_name (sig_signal entry)
                (sig_quantity1 entry) (sig_quantity2 entry) (sig_zscore entry))
      as (_ & _ & H1 & _).
    destruct (calculate_signals_settings self (Recent stats1) pair_name)
      as (_ & _ & H2 & _).
    exact (eq_trans H1 H2). }
  rewrite <- Hthr in Hgate.
  pose proof (calculate_signals_passed held pair_name stats2 Hgate) as Hd.
  cbv zeta in Hd. rewrite Hheld in Hd. unfold decide_signal in Hd.
  cbn [pr_quantity1 pr_quantity2 pr_entry_zscore] in Hd.
  split; [|split].
  - revert Hd.
    destruct (check_stop_loss _ _ _);
      [|destruct (Qltb (Qabs _) _)];
      intros Hd; injection Hd as H1 H2 H3; try exact H2.
    pose proof (eq_trans (eq_sym H1) Hclose) as Hc. discriminate Hc.
  - revert Hd.
    destruct (check_stop_loss _ _ _);
      [|destruct (Qltb (Qabs _) _)];
      intros Hd; injection Hd as H1 H2 H3; try exact H3.
    pose proof (eq_trans (eq_sym H1) Hclose) as Hc. discriminate Hc.
  - now rewrite update_position_lookup.
Qed.

Lemma close_offsets_entry_witness :
  let entry := fst (calculate_signals (Strategy_init empty_config)
                      (Recent (Some (sample_stats (25 # 10) (9 # 10))))
                      "BTC-ETH") in
  let held := update_position
                (snd (calculate_signals (Strategy_init empty_config)
                        (Recent (Some (sample_stats (25 # 10) (9 # 10))))
                        "BTC-ETH"))
                "BTC-ETH" (sig_signal entry) (sig_quantity1 entry)
                (sig_quantity2 entry) (sig_zscore entry) in
  let exit := fst (calculate_signals held
                     (Recent (Some (sample_stats (3 # 10) (9 # 10))))
                     "BTC-ETH") in
  sig_quantity1 exit = - sig_quantity1 entry /\
  sig_quantity2 exit = - sig_quantity2 entry.
Proof.
  intros entry held exit.
  destruct (close_offsets_entry (Strategy_init empty_config) "BTC-ETH"
              (Some (sample_stats (25 # 10) (9 # 10)))
              (Some (sample_stats (3 # 10) (9 # 10)))) as (H1 & H2 & _).
  - reflexivity.
  - unfold Qle; simpl; lia.
  - reflexivity.
  - split; [exact H1 | exact H2].
Defined.

End StrategyStateFacts.

(** ** Position ledger life cycle *)

Module LedgerLifeFacts.
Import Dynamic Positions LedgerFacts Scenarios.

Lemma close_position_returned (pm : PositionManager) (k : string)
    (e1 e2 : option Q) (t : Z) (returned : option Position) :
  snd (close_position pm k e1 e2 t) = Normal returned ->
  has_position (fst (close_position pm k e1 e2 t)) k = false /\
  (forall p : Position,
     positions pm !! k = Some p ->
     exists c : Position,
       positions (fst (close_position pm k e1 e2 t)) !! k = Some c /\
       is_closed c = true /\ returned = Some c).
Proof.
  unfold close_position, has_position.
  destruct (positions pm !! k) as [p|] eqn:E.
  - destruct (is_closed p) eqn:Ec.
    + cbn [fst snd]. intros [= <-]. rewrite E, Ec. split; [reflexivity|].
      intros p' [= <-]. exists p. now repeat split.
    + destruct (close_cases p e1 e2 t) as [_ Hcases].
      destruct (close p e1 e2 t) as [after ended]. cbn [fst snd] in *.
      destruct Hcases as [[-> Hc]|(m & -> & _)]; [|discriminate].
      intros [= <-]. cbn [positions]. rewrite lookup_insert_eq, Hc.
      split; [reflexivity|].
      intros p' _. exists after. now repeat split.
  - cbn [fst snd]. intros _. rewrite E. split; [reflexivity|].
    intros p' H. discriminate.
Qed.

Lemma close_position_raised (pm : PositionManager) (k : string)
    (e1 e2 : option Q) (t : Z) (message : string) :
  snd (close_position pm k e1 e2 t) = Raised message ->
  exists p : Position,
    positions pm !! k = Some p /\ is_closed p = false /\
    fst (close_position pm k e1 e2 t)
    = {| positions := <[k := record_exit p e1 e2 t]> (positions pm) |}.
Proof.
  unfold close_position.
  destruct (positions pm !! k) as [p|] eqn:E; [|discriminate].
  destruct (is_closed p) eqn:Ec; [discriminate|].
  destruct (close_cases p e1 e2 t) as [_ Hcases].
  destruct (close p e1 e2 t) as [after ended]. cbn [fst snd] in *.
  destruct Hcases as [[-> _]|(m & -> & ->)]; [discriminate|].
  intros _. exists p. now repeat split.
Qed.

Lemma position_life_cycle_cases (pm : PositionManager) (k : string) :
  (forall (a1 a2 : string) (q1 q2 z : Q) (p1 p2 : option Q) (t : Z),
     has_position (fst (open_position pm k a1 a2 q1 q2 z p1 p2 t)) k = true) /\
  (forall (e1 e2 : option Q) (t : Z),
     match snd (close_position pm k e1 e2 t) with
     | Normal _ => has_position (fst (close_position pm k e1 e2 t)) k = false
     | Raised _ =>
         has_position pm k = true /\
         has_position (fst (close_position pm k e1 e2 t)) k = true
     end).
Proof.
  split.
  - intros. unfold open_position, has_position.
    destruct (positions pm !! k) as [p|] eqn:E.
    + destruct (is_closed p) eqn:Ec; simpl.
      * now rewrite lookup_insert_eq.
      * now rewrite E, Ec.
    + simpl. now rewrite lookup_insert_eq.
  - intros e1 e2 t.
    destruct (snd (close_position pm k e1 e2 t)) as [returned|message] eqn:Es.
    + apply (close_position_returned pm k e1 e2 t returned Es).
    + destruct (close_position_raised pm k e1 e2 t message Es)
        as (p & Hp & Hopen & ->).
      unfold has_position. cbn [positions].
      rewrite Hp, lookup_insert_eq. cbn [record_exit is_closed].
      rewrite Hopen. now split.
Qed.

(** X8: closing is idempotent.  Once [close_position] has returned for a
    pair, a second call for the same pair, whatever exit prices it carries,
    returns what the first call returned and leaves the ledger as the first
    call left it: the realized profit and loss is not recomputed.  (The
    first call returns unless it has to close an open position with a price
    that is [None]; it then raises and has closed nothing.) *)
Theorem close_position_idempotent (pm : PositionManager) (k : string)
    (e1 e2 e1' e2' : option Q) (t t' : Z) (returned : option Position) :
  snd (close_position pm k e1 e2 t) = Normal returned ->
  close_position (fst (close_position pm k e1 e2 t)) k e1' e2' t'
  = close_position pm k e1 e2 t.
Proof.
  intros Hret.
  destruct (close_position_returned pm k e1 e2 t returned Hret) as [_ Hstored].
  destruct (close_position pm k e1 e2 t) as [pm' ended] eqn:Efirst.
  cbn [fst snd] in *. subst ended.
  destruct (positions pm !! k) as [p|] eqn:E.
  - destruct (Hstored p eq_refl) as (c & Hc & Hcc & ->).
    unfold close_position. now rewrite Hc, Hcc.
  - unfold close_position in Efirst. rewrite E in Efirst.
    injection Efirst as <- <-. unfold close_position. now rewrite E.
Qed.

Lemma close_position_idempotent_witness :
  close_position
    (fst (close_position one_open "BTC-ETH" (Some 110) (Some 55) 2000%Z))
    "BTC-ETH" (Some 200) None 3000%Z
  = close_position one_open "BTC-ETH" (Some 110) (Some 55) 2000%Z.
Proof.
  apply (close_position_idempotent one_open "BTC-ETH" (Some 110) (Some 55)
           (Some 200) None 2000%Z 3000%Z
           (Some (fst (close (Position_init "BTC-ETH" "BTC" "ETH" 1 (- (2))
                                (21 # 10) (Some 100) (Some 50) 1000%Z)
                         (Some 110) (Some 55) 2000%Z)))).
  vm_compute. reflexivity.
Defined.

(** X9: the life cycle of a pair in the ledger.  After [open_position] the
    pair has an open position; after a [close_position] that returned it has
    none, and after one that raised it still has the open position it had;
    neither call changes what [has_position] says about another pair; and
    opening again after a close that returned files a fresh position built
    from the new arguments in place of the closed one. *)
Theorem position_life_cycle (pm : PositionManager) (k : string) :
  (forall (a1 a2 : string) (q1 q2 z : Q) (p1 p2 : option Q) (t : Z),
     has_position (fst (open_position pm k a1 a2 q1 q2 z p1 p2 t)) k = true) /\
  (forall (e1 e2 : option Q) (t : Z),
     match snd (close_position pm k e1 e2 t) with
     | Normal _ => has_position (fst (close_position pm k e1 e2 t)) k = false
     | Raised _ =>
         has_position pm k = true /\
         has_position (fst (close_position pm k e1 e2 t)) k = true
     end) /\
  (forall (j : string) (a1 a2 : string) (q1 q2 z : Q) (p1 p2 e1 e2 : option Q)
          (t : Z),
     k <> j ->
     has_position (fst (open_position pm k a1 a2 q1 q2 z p1 p2 t)) j
       = has_position pm j /\
     has_position (fst (close_position pm k e1 e2 t)) j = has_position pm j) /\
  (forall (a1 a2 : string) (q1 q2 z : Q) (p1 p2 e1 e2 : option Q) (t t' : Z)
          (returned : option Position),
     is_Some (positions pm !! k) ->
     snd (close_position pm k e1 e2 t) = Normal returned ->
     let closed := fst (close_position pm k e1 e2 t) in
     open_position closed k a1 a2 q1 q2 z p1 p2 t'
     = ({| positions := <[k := Position_init k a1 a2 q1 q2 z p1 p2 t']>
                          (positions closed) |},
        Position_init k a1 a2 q1 q2 z p1 p2 t')).
Proof.
  split; [|split; [|split]].
  - apply (proj1 (position_life_cycle_cases pm k)).
  - apply (proj2 (position_life_cycle_cases pm k)).
  - intros j a1 a2 q1 q2 z p1 p2 e1 e2 t Hne. unfold has_position. split.
    + change (fst (open_position pm k a1 a2 q1 q2 z p1 p2 t))
        with (apply_op pm (OpOpen k a1 a2 q1 q2 z p1 p2 t)).
      now rewrite (apply_op_other pm (OpOpen k a1 a2 q1 q2 z p1 p2 t) j Hne).
    + change (fst (close_position pm k e1 e2 t))
        with (apply_op pm (OpClose k e1 e2 t)).
      now rewrite (apply_op_other pm (OpClose k e1 e2 t) j Hne).
  - intros a1 a2 q1 q2 z p1 p2 e1 e2 t t' returned [p Hp] Hret closed.
    destruct (close_position_returned pm k e1 e2 t returned Hret) as [_ Hst].
    destruct (Hst p Hp) as (c & Hc & Hcc & _).
    unfold open_position. fold closed in Hc. now rewrite Hc, Hcc.
Qed.

Lemma position_life_cycle_witness :
  has_position
    (fst (close_position one_open "BTC-ETH" (Some 110) (Some 55) 2000%Z))
    "SOL-AVAX"
    = has_position one_open "SOL-AVAX" /\
  fst (open_position
         (fst (close_position one_open "BTC-ETH" (Some 110) (Some 55) 2000%Z))
         "BTC-ETH" "BTC" "ETH" 3 (- (6)) (- (23 # 10)) (Some 120) (Some 60)
         3000%Z)
  = {| positions :=
         <["BTC-ETH" := Position_init "BTC-ETH" "BTC" "ETH" 3 (- (6))
                          (- (23 # 10)) (Some 120) (Some 60) 3000%Z]>
           (positions
              (fst (close_position one_open "BTC-ETH" (Some 110) (Some 55)
                      2000%Z))) |}.
Proof.
  destruct (position_life_cycle one_open "BTC-ETH") as (_ & _ & Hother & Hre).
  split.
  - apply (Hother "SOL-AVAX" "" "" 0 0 0 None None (Some 110) (Some 55) 2000%Z).
    discriminate.
  - rewrite (Hre "BTC" "ETH" 3 (- (6)) (- (23 # 10)) (Some 120) (Some 60)
               (Some 110) (Some 55) 2000%Z 3000%Z
               (Some (fst (close (Position_init "BTC-ETH" "BTC" "ETH" 1
                                    (- (2)) (21 # 10) (Some 100) (Some 50)
                                    1000%Z)
                             (Some 110) (Some 55) 2000%Z)))).
    + reflexivity.
    + eexists. vm_compute. reflexivity.
    + vm_compute. reflexivity.
Defined.

End LedgerLifeFacts.

(** ** Execution engine *)

Module EngineFacts.
Import RiskManagement Signals Dynamic Execution EngineRuns NumericFacts
  ExecutionFacts Scenarios.

(** X11: the paths of [execute_signal] that trade nothing.  A hold signal
    returns [None] and leaves the engine exactly as it was.  For any other
    signal, when the ticker of either asset is unavailable the call returns
    [None] after asking for both tickers: no order is created, no market
    order is placed and the position ledger is untouched. *)
Theorem no_price_no_trade (eng : ExecutionEngine) (signal : Signal)
    (pair_name : string) (balance : Q) (now : Z) :
  let ex := exchange eng in
  let h := history ex in
  let a1 := asset1_of signal in
  let a2 := asset2_of signal in
  let r := execute_signal eng signal pair_name balance now in
  (sig_signal signal = hold -> r = (None, eng)) /\
  (sig_signal signal <> hold ->
   ticker_last ex h a1 = None \/ ticker_last ex (h ++ [GetTicker a1]) a2 = None ->
   fst r = None /\
   history (exchange (snd r)) = h ++ [GetTicker a1; GetTicker a2] /\
   order_manager (snd r) = order_manager eng /\
   position_manager (snd r) = position_manager eng /\
   risk_manager (snd r) = risk_manager eng).
Proof.
  intros ex h a1 a2 r. subst r a1 a2 h ex. unfold asset1_of, asset2_of.
  split.
  - intros Hs. unfold execute_signal. now rewrite Hs.
  - intros Hs Hmiss. rewrite <- history_two.
    unfold execute_signal, get_ticker.
    destruct (sig_signal signal) eqn:Es; [contradiction|..];
      cbn [history record_call ticker_last market_order];
      (destruct Hmiss as [-> | ->];
       [|destruct (ticker_last (exchange eng) (history (exchange eng)) _)];
       repeat split; reflexivity).
Qed.

Lemma no_price_no_trade_witness :
  let r := execute_signal (ExecutionEngine_init silent_exchange None)
             entry_signal "BTC-ETH" 10000 0%Z in
  fst r = None /\
  history (exchange (snd r)) = [GetTicker "asset1"; GetTicker "asset2"].
Proof.
  intros r.
  destruct (proj2 (no_price_no_trade (ExecutionEngine_init silent_exchange None)
                     entry_signal "BTC-ETH" 10000 0%Z)) as (H1 & H2 & _).
  - discriminate.
  - left. reflexivity.
  - split; [exact H1 | exact H2].
Defined.

(** X13: an entry whose two legs are both answered.  The result reports
    success with the filled quantities and prices the order holds, the
    order is stored with status FILLED, and, the pair having no open
    position, the ledger files a new position with the adjusted signed
    quantities, the z-score of the signal and, as entry prices, the fill
    prices the order holds.  Such a price is what the exchange reported: the
    quoted price stands in only where the answer has no ['price'] key, and
    an answer whose price is [None] puts [None] in the result, on the order
    and in the position.  When the pair already has an open position the
    orders are placed all the same and the ledger is left unchanged. *)
Theorem filled_entry_opens_at_fill_prices (eng : ExecutionEngine)
    (signal : Signal) (pair_name : string) (balance : Q) (now : Z)
    (p1 p2 q1 q2 : Q) (x1 x2 : ExchangeOrder) :
  let ex := exchange eng in
  let h := history ex in
  let a1 := asset1_of signal in
  let a2 := asset2_of signal in
  let leg1 := PlaceMarketOrder a1 (side_of q1) (Qabs q1) in
  let oid :=
    Orders.make_order_id (S (Orders._order_counter (order_manager eng))) now in
  let fp1 := fill_price x1 p1 in
  let fp2 := fill_price x2 p2 in
  let r := execute_signal eng signal pair_name balance now in
  is_entry (sig_signal signal) = true ->
  ticker_last ex h a1 = Some p1 ->
  ticker_last ex (h ++ [GetTicker a1]) a2 = Some p2 ->
  adjust_quantities (risk_manager eng) (sig_signal signal)
    (sig_quantity1 signal) (sig_quantity2 signal) p1 p2 balance = (q1, q2) ->
  market_order ex (h ++ [GetTicker a1; GetTicker a2])
    a1 (side_of q1) (Qabs q1) = Some x1 ->
  market_order ex (h ++ [GetTicker a1; GetTicker a2; leg1])
    a2 (side_of q2) (Qabs q2) = Some x2 ->
  fst r = Some {| success := true; order_id := oid; error := None;
                  filled_quantity1 := Some (fill_quantity x1 (Qabs q1));
                  filled_quantity2 := Some (fill_quantity x2 (Qabs q2));
                  filled_price1 := Some fp1; filled_price2 := Some fp2 |} /\
  (exists o : Orders.Order,
     Orders.get_order (order_manager (snd r)) oid = Some o /\
     Orders.status o = Orders.FILLED /\
     Orders.filled_price1 o = fp1 /\ Orders.filled_price2 o = fp2) /\
  (Positions.has_position (position_manager eng) pair_name = false ->
   Positions.get_position (position_manager (snd r)) pair_name
     = Some (Positions.Position_init pair_name a1 a2 q1 q2
               (sig_zscore signal) fp1 fp2 now)) /\
  (Positions.has_position (position_manager eng) pair_name = true ->
   position_manager (snd r) = position_manager eng) /\
  (eo_price x1 = None -> fp1 = Some p1) /\
  (forall reported : option Q, eo_price x1 = Some reported -> fp1 = reported) /\
  (eo_price x2 = None -> fp2 = Some p2) /\
  (forall reported : option Q, eo_price x2 = Some reported -> fp2 = reported).
Proof.
  intros ex h a1 a2 leg1 oid fp1 fp2 r Hentry Ht1 Ht2 Hq Hr1 Hr2.
  assert (Hsig : sig_signal signal <> hold).
  { intros E. rewrite E in Hentry. discriminate. }
  destruct (execute_signal_answered eng signal pair_name balance now
              p1 p2 q1 q2 x1 x2 Hsig Ht1 Ht2 Hq Hr1 Hr2)
    as (_ & Hpm & _ & Hres).
  fold r fp1 fp2 a1 a2 in Hpm, Hres.
  assert (Hup : update_ledger (position_manager eng) (sig_signal signal)
                  pair_name a1 a2 q1 q2 (sig_zscore signal) fp1 fp2 now
                = (fst (Positions.open_position (position_manager eng)
                          pair_name a1 a2 q1 q2 (sig_zscore signal)
                          fp1 fp2 now), Normal tt)).
  { destruct (sig_signal signal); try discriminate Hentry; reflexivity. }
  rewrite Hup in Hpm, Hres. cbn [fst snd] in Hpm, Hres.
  destruct Hres as [Hfst Hord].
  split; [exact Hfst|].
  split; [eexists; split; [exact Hord | repeat split; reflexivity]|].
  rewrite Hpm.
  unfold Positions.has_position, Positions.open_position,
    Positions.get_position.
  split; [|split; [|repeat split]].
  - destruct (Positions.positions (position_manager eng) !! pair_name)
      as [p|] eqn:Ep; [destruct (Positions.is_closed p) eqn:Ec|];
      cbn [negb fst Positions.positions]; intros Hhas; try discriminate;
      now rewrite lookup_insert_eq.
  - destruct (Positions.positions (position_manager eng) !! pair_name)
      as [p|] eqn:Ep; [destruct (Positions.is_closed p) eqn:Ec|];
      cbn [negb fst Positions.positions]; intros Hhas; try discriminate;
      reflexivity.
  - unfold fp1, fill_price. now intros ->.
  - unfold fp1, fill_price. now intros reported ->.
  - unfold fp2, fill_price. now intros ->.
  - unfold fp2, fill_price. now intros reported ->.
Qed.

Lemma filled_entry_opens_at_fill_prices_witness :
  Positions.get_position
    (position_manager
       (snd (execute_signal (ExecutionEngine_init filling_exchange None)
               entry_signal "BTC-ETH" 10000 0%Z))) "BTC-ETH"
  = Some (Positions.Position_init "BTC-ETH" "asset1" "asset2" 1 (- (2))
            (25 # 10) (Some 101) (Some 49) 0%Z) /\
  Positions.get_position
    (position_manager
       (snd (execute_signal (ExecutionEngine_init unpriced_exchange None)
               entry_signal "BTC-ETH" 10000 0%Z))) "BTC-ETH"
  = Some (Positions.Position_init "BTC-ETH" "asset1" "asset2" 1 (- (2))
            (25 # 10) None None 0%Z).
Proof.
  split.
  - refine (proj1 (proj2 (proj2
              (filled_entry_opens_at_fill_prices
                 (ExecutionEngine_init filling_exchange None) entry_signal
                 "BTC-ETH" 10000 0%Z 100 50 1 (- (2))
                 {| eo_id := Some "X-7"; eo_filled := Some (Some 1);
                    eo_price := Some (Some 101) |}
                 {| eo_id := Some "X-7"; eo_filled := Some (Some 2);
                    eo_price := Some (Some 49) |} _ _ _ _ _ _))) _).
    + reflexivity.
    + reflexivity.
    + reflexivity.
    + vm_compute. reflexivity.
    + reflexivity.
    + reflexivity.
    + reflexivity.
  - refine (proj1 (proj2 (proj2
              (filled_entry_opens_at_fill_prices
                 (ExecutionEngine_init unpriced_exchange None) entry_signal
                 "BTC-ETH" 10000 0%Z 100 50 1 (- (2))
                 {| eo_id := Some "X-9"; eo_filled := Some (Some 1);
                    eo_price := Some None |}
                 {| eo_id := Some "X-9"; eo_filled := Some (Some 2);
                    eo_price := Some None |} _ _ _ _ _ _))) _).
    + reflexivity.
    + reflexivity.
    + reflexivity.
    + vm_compute. reflexivity.
    + reflexivity.
    + reflexivity.
    + reflexivity.
Defined.




Lemma serve_settled (eng : ExecutionEngine) (rq : Request) :
  settled eng -> settled (serve eng rq).
Proof.
  intros [Hord Hpos]. unfold serve, execute_signal, get_ticker,
    place_market_order.
  destruct (sig_signal (rq_signal rq)) eqn:Es; [now split|..];
    cbn [history record_call ticker_last market_order];
    (destruct (ticker_last (exchange eng) (history (exchange eng)) _)
       as [price1|]; [|now split]);
    (destruct (ticker_last (exchange eng) _ _) as [price2|]; [|now split]);
    (destruct (adjust_quantities _ _ _ _ _ _ _) as [q1 q2]);
    cbn [Orders.create_order];
    (destruct (market_order (exchange eng) _ _ _ _) as [r1|]);
    (destruct (market_order (exchange eng) _ _ _ _) as [r2|]);
    cbn [update_ledger];
    try match goal with
        | |- context [Positions.close_position ?a ?b ?c ?d ?e] =>
            pose proof (LedgerFacts.well_formed_close a b c d e Hpos) as Hwf;
            destruct (Positions.close_position a b c d e)
              as [pm' [ret|message]];
            cbn [fst] in Hwf
        end;
    (split;
     [intros id o; unfold Orders.get_order, Orders.store;
      cbn [snd order_manager Orders.orders Orders.order_id
           Orders.update_status Orders.set_fill1 Orders.set_fill2
           Orders.Order_init];
      destruct (decide
                  (Orders.make_order_id
                     (S (Orders._order_counter (order_manager eng)))
                     (rq_now rq) = id)) as [<-|Hne];
      [rewrite lookup_insert_eq; intros [= <-]; split; [reflexivity|];
       (left; reflexivity) || (right; reflexivity)
      |rewrite !lookup_insert_ne by exact Hne; apply Hord]
     |cbn [snd position_manager];
      first [exact Hpos
            | exact Hwf
            | apply LedgerFacts.well_formed_open; exact Hpos]]).
Qed.

Lemma run_requests_settled (rqs : list Request) (eng : ExecutionEngine) :
  settled eng -> settled (run_requests eng rqs).
Proof.
  unfold run_requests. revert eng.
  induction rqs as [|rq rqs IH]; intros eng H; simpl; [exact H|].
  apply IH. now apply serve_settled.
Qed.

Lemma serve_counter (eng : ExecutionEngine) (rq : Request) :
  risk_manager (serve eng rq) = risk_manager eng /\
  (Orders._order_counter (order_manager eng)
   <= Orders._order_counter (order_manager (serve eng rq))
   <= S (Orders._order_counter (order_manager eng)))%nat.
Proof.
  unfold serve, execute_signal, get_ticker, place_market_order.
  destruct (sig_signal (rq_signal rq)) eqn:Es; [split; [reflexivity | simpl; lia]|..];
    cbn [history record_call ticker_last market_order];
    (destruct (ticker_last (exchange eng) (history (exchange eng)) _)
       as [price1|];
     [|split; [reflexivity | simpl; lia]]);
    (destruct (ticker_last (exchange eng) _ _) as [price2|];
     [|split; [reflexivity | simpl; lia]]);
    (destruct (adjust_quantities _ _ _ _ _ _ _) as [q1 q2]);
    cbn [Orders.create_order];
    (destruct (market_order (exchange eng) _ _ _ _) as [r1|]);
    (destruct (market_order (exchange eng) _ _ _ _) as [r2|]);
    cbn [update_ledger];
    try (destruct (Positions.close_position _ _ _ _ _) as [pm' [ret|message]]);
    (split; [reflexivity | simpl; lia]).
Qed.

(** X16: whatever the exchange answers and whatever signals are executed,
    an engine started by [ExecutionEngine.__init__] and driven by
    [execute_signal] calls keeps its books settled: every stored order is
    filed under its own id with status FILLED or REJECTED (none is left
    PENDING), every stored position is filed under its own pair name and an
    open one carries no profit or loss, the risk settings are those of the
    start, and no more orders were created than calls were made. *)
Theorem engine_books_settled (ex : Exchange) (risk_config : option Config)
    (rqs : list Request) :
  let eng := run_requests (ExecutionEngine_init ex risk_config) rqs in
  settled eng /\
  risk_manager eng = RiskManager_init (default empty_config risk_config) /\
  (Orders._order_counter (order_manager eng) <= length rqs)%nat.
Proof.
  intros eng. subst eng. split; [|].
  - apply run_requests_settled. split.
    + intros id o H. unfold Orders.get_order in H. simpl in H.
      now rewrite lookup_empty in H.
    + apply LedgerFacts.well_formed_init.
  - unfold run_requests.
    assert (H : forall rqs eng,
              risk_manager (fold_left serve rqs eng) = risk_manager eng /\
              (Orders._order_counter (order_manager (fold_left serve rqs eng))
               <= Orders._order_counter (order_manager eng) + length rqs)%nat).
    { clear. induction rqs as [|rq rqs IH]; intros eng; simpl.
      - split; [reflexivity | lia].
      - destruct (IH (serve eng rq)) as [Hr Hc].
        destruct (serve_counter eng rq) as [Hr' Hc'].
        split; [congruence | lia]. }
    destruct (H rqs (ExecutionEngine_init ex risk_config)) as [Hr Hc].
    split; [exact Hr | exact Hc].
Qed.

End EngineFacts.

(** ** Order manager *)

Module OrderBookFacts.
Import Orders OrderBooks Scenarios.

Lemma pretty_N_char_no_underscore (x : N) : pretty_N_char x <> "_"%char.
Proof. unfold pretty_N_char. repeat case_match; discriminate. Qed.

Lemma pretty_N_go_no_underscore (x : N) :
  forall s, no_underscore s -> no_underscore (pretty_N_go x s).
Proof.
  induction (N.lt_wf_0 x) as [x _ IH]. intros s Hs.
  destruct (decide (x = 0%N)) as [->|Hx].
  - now rewrite pretty_N_go_0.
  - rewrite pretty_N_go_step by lia. apply IH.
    + apply N.div_lt; lia.
    + split; [apply pretty_N_char_no_underscore | exact Hs].
Qed.

Lemma pretty_nat_no_underscore (n : nat) : no_underscore (pretty n).
Proof.
  unfold pretty, pretty_nat, pretty, pretty_N.
  destruct (decide (N.of_nat n = 0%N)).
  - split; [discriminate | exact I].
  - apply pretty_N_go_no_underscore. exact I.
Qed.

(** Two separator-free strings followed by the separator agree as soon as
    the whole strings do. *)
Lemma split_at_underscore (d d' r r' : string) :
  no_underscore d -> no_underscore d' ->
  d +:+ String "_" r = d' +:+ String "_" r' -> d = d'.
Proof.
  revert d'. induction d as [|a d IH]; intros [|a' d'] Hd Hd' H; simpl in *.
  - reflexivity.
  - injection H as Ha _. destruct Hd' as [Hn _]. congruence.
  - injection H as Ha _. destruct Hd as [Hn _]. congruence.
  - injection H as -> H. f_equal. apply IH; tauto.
Qed.

(** The id written by [create_order] determines the counter value. *)
Lemma make_order_id_counter (c c' : nat) (t t' : Z) :
  make_order_id c t = make_order_id c' t' -> c = c'.
Proof.
  unfold make_order_id. intros H. simpl in H.
  injection H as H.
  apply split_at_underscore in H; try apply pretty_nat_no_underscore.
  now apply pretty_nat_inj in H.
Qed.

Lemma ids_issued_init : ids_issued OrderManager_init.
Proof. intros id [o H]. simpl in H. now rewrite lookup_empty in H. Qed.

Lemma place_fresh (om : OrderManager) (n : NewOrder) :
  ids_issued om ->
  orders om !! make_order_id (S (_order_counter om)) (no_now n) = None.
Proof.
  intros Hiss.
  destruct (orders om !! make_order_id (S (_order_counter om)) (no_now n))
    as [o|] eqn:E; [|reflexivity].
  destruct (Hiss _ (ex_intro _ o E)) as (c & t & Hid & Hc).
  apply make_order_id_counter in Hid. lia.
Qed.

Lemma place_ids_issued (om : OrderManager) (n : NewOrder) :
  ids_issued om -> ids_issued (fst (place om n)).
Proof.
  intros Hiss id Hsome. unfold place, create_order in *. simpl in *.
  destruct (decide (make_order_id (S (_order_counter om)) (no_now n) = id))
    as [<-|Hne].
  - exists (S (_order_counter om)), (no_now n). split; [reflexivity | lia].
  - rewrite lookup_insert_ne in Hsome by exact Hne.
    destruct (Hiss id Hsome) as (c & t & -> & Hc).
    exists c, t. split; [reflexivity | lia].
Qed.

Lemma book_invariant (ns : list NewOrder) (om : OrderManager) :
  ids_issued om ->
  size (orders om) = _order_counter om ->
  ids_issued (fold_left (fun om n => fst (place om n)) ns om) /\
  size (orders (fold_left (fun om n => fst (place om n)) ns om))
    = _order_counter (fold_left (fun om n => fst (place om n)) ns om) /\
  _order_counter (fold_left (fun om n => fst (place om n)) ns om)
    = (_order_counter om + length ns)%nat.
Proof.
  revert om. induction ns as [|n ns IH]; intros om Hiss Hsize.
  - simpl. repeat split; [exact Hiss | exact Hsize | lia].
  - cbn [fold_left length].
    destruct (IH (fst (place om n))) as (H1 & H2 & H3).
    + now apply place_ids_issued.
    + unfold place, create_order. cbn [fst orders _order_counter].
      rewrite map_size_insert_None by now apply place_fresh.
      now rewrite Hsize.
    + split; [exact H1|]. split; [exact H2|].
      rewrite H3. unfold place, create_order. cbn [fst _order_counter]. lia.
Qed.

(** X17: order ids never collide.  In a manager built from
    [OrderManager.__init__] by [create_order] calls, whatever the clock
    returns, each call files its order under an id that was not on file
    before: the number of stored orders equals [_order_counter] and the
    number of calls, a new call leaves every earlier order retrievable
    under its id, and [get_order] on the new id returns the new order, which
    is PENDING with nothing filled. *)
Theorem order_ids_never_collide (ns : list NewOrder) (n : NewOrder) :
  let om := book ns in
  let r := place om n in
  size (orders om) = length ns /\
  _order_counter om = length ns /\
  get_order om (order_id (snd r)) = None /\
  get_order (fst r) (order_id (snd r)) = Some (snd r) /\
  status (snd r) = PENDING /\
  filled_quantity1 (snd r) = Some 0 /\ filled_quantity2 (snd r) = Some 0 /\
  (forall (id : string) (o : Order),
     get_order om id = Some o -> get_order (fst r) id = Some o).
Proof.
  intros om r.
  destruct (book_invariant ns OrderManager_init ids_issued_init)
    as (Hiss & Hsize & Hcount); [reflexivity|].
  fold (book ns) in Hiss, Hsize, Hcount. fold om in Hiss, Hsize, Hcount.
  simpl in Hcount.
  assert (Hfresh : get_order om (order_id (snd r)) = None)
    by (apply place_fresh; exact Hiss).
  split; [congruence|]. split; [exact Hcount|]. split; [exact Hfresh|].
  split; [apply lookup_insert_eq|].
  split; [reflexivity|]. split; [reflexivity|]. split; [reflexivity|].
  intros id o Ho. unfold get_order, r, place, create_order. simpl.
  rewrite lookup_insert_ne; [exact Ho|].
  intros <-. unfold get_order in Hfresh, Ho. simpl in Hfresh.
  rewrite Ho in Hfresh. discriminate.
Qed.

Lemma order_ids_never_collide_witness :
  get_order (fst (place (book [sample_order 5%Z]) (sample_order 5%Z)))
    "order_1_5"
  = Some (Order_init "order_1_5" "BTC-ETH" "BTC" "ETH" buy sell 1 2 None None
            "market" 5%Z).
Proof.
  destruct (order_ids_never_collide [sample_order 5%Z] (sample_order 5%Z))
    as (_ & _ & _ & _ & _ & _ & _ & Hkeep).
  apply Hkeep. vm_compute. reflexivity.
Defined.

End OrderBookFacts.

(** ** Series utilities *)

Module SeriesFacts.
Import MathUtils SeriesUtils NumericFacts SumFacts ZScoreFacts Scenarios.
Local Open Scope nat_scope.

Section AnyReductions.

Variable np_mean : list Q -> npfloat.
Variable np_std : list Q -> npfloat.

Lemma getitem_last {A} (l : list A) :
  match last l with
  | Some x => getitem l (-1)%Z = Returns x
  | None => getitem l (-1)%Z = Raises IndexError
  end.
Proof.
  destruct l as [|a l] using rev_ind; [reflexivity|].
  rewrite last_snoc. unfold getitem, py_index. rewrite length_app.
  simpl length.
  destruct (Z.leb_spec 0 (-1)); [lia|].
  destruct (Z.leb_spec (- Z.of_nat (length l + 1)) (-1)); [|lia].
  replace (Z.to_nat (-1 + Z.of_nat (length l + 1))) with (length l) by lia.
  now rewrite list_lookup_middle.
Qed.

(** X18: the statistics [calculate_pair_statistics] computes from the
    spread, whatever [np.mean] and [np.std] return.  On a spread that is not
    empty they are returned, without an index error and without dividing by
    zero: the current spread is the last entry, and the current z-score is 0
    when the standard deviation is not a positive number (zero, negative or
    [nan]) and otherwise the last entry standardized by the mean and the
    standard deviation.  On an empty spread the function raises an index
    error: the guard of the z-score does not cover the [spread[-1]] of the
    returned dictionary. *)
Theorem pair_statistics_from_spread (spread : list Q) :
  (spread = [] ->
   spread_statistics np_mean np_std spread = Raises IndexError) /\
  (forall x : Q,
     last spread = Some x ->
     exists st : SpreadStatistics,
       spread_statistics np_mean np_std spread = Returns st /\
       ss_current_spread st = x /\
       ss_spread_mean st = np_mean spread /\
       ss_spread_std st = np_std spread /\
       (forall s : Q, np_std spread = Fin s -> (s <= 0)%Q ->
        ss_current_zscore st = Fin 0) /\
       (np_std spread = NaN -> ss_current_zscore st = Fin 0) /\
       (forall s : Q, np_std spread = Fin s -> (0 < s)%Q ->
        Returns (ss_current_zscore st)
        = np_div (np_sub (Fin x) (np_mean spread)) (Fin s))).
Proof.
  split.
  - intros ->. unfold spread_statistics, current_zscore.
    destruct (np_std []) as [|s]; [reflexivity|].
    destruct (Qltb 0 s); reflexivity.
  - intros x Hx. pose proof (getitem_last spread) as Hg. rewrite Hx in Hg.
    unfold spread_statistics, current_zscore. rewrite Hg.
    destruct (np_std spread) as [|s] eqn:Estd.
    + cbn [mbind Outcome_bind]. eexists. split; [reflexivity|].
      cbn [ss_current_spread ss_spread_mean ss_spread_std ss_current_zscore].
      repeat split; try reflexivity; intros; discriminate.
    + destruct (Qltb 0 s) eqn:Epos.
      * apply Qltb_true in Epos. cbn [mbind Outcome_bind].
        assert (Ez : is_zero (Fin s) = false).
        { simpl. destruct (Qeq_bool s 0) eqn:E; [|reflexivity].
          apply Qeq_bool_iff in E. lra. }
        destruct (np_div_returns (np_sub (Fin x) (np_mean spread)) _ Ez)
          as [v Hv].
        rewrite Hv. cbn [mbind Outcome_bind].
        eexists. split; [reflexivity|].
        cbn [ss_current_spread ss_spread_mean ss_spread_std ss_current_zscore].
        split; [reflexivity|]. split; [reflexivity|]. split; [reflexivity|].
        split; [intros s' [= <-] Hs; lra|]. split; [discriminate|].
        intros s' [= <-] _. now rewrite Hv.
      * apply Qltb_false in Epos. cbn [mbind Outcome_bind].
        eexists. split; [reflexivity|].
        cbn [ss_current_spread ss_spread_mean ss_spread_std ss_current_zscore].
        split; [reflexivity|]. split; [reflexivity|]. split; [reflexivity|].
        split; [reflexivity|]. split; [discriminate|].
        intros s' [= <-] Hs. lra.
Qed.

End AnyReductions.

Lemma pair_statistics_from_spread_witness :
  exists st : SpreadStatistics,
    spread_statistics sample_mean sample_std [1%Q; 2%Q; 4%Q; 4%Q; 7%Q]
      = Returns st /\
    ss_current_spread st = 7%Q.
Proof.
  destruct (proj2 (pair_statistics_from_spread sample_mean sample_std
                     [1%Q; 2%Q; 4%Q; 4%Q; 7%Q]) 7%Q eq_refl)
    as (st & Hst & Hx & _).
  exists st. split; [exact Hst | exact Hx].
Defined.

Lemma py_slice_init {A} (l : list A) :
  py_slice l 0 (-1) = take (length l - 1) l.
Proof.
  unfold py_slice, py_bound.
  destruct (Z.ltb_spec 0 0); [lia|]. destruct (Z.ltb_spec (-1) 0); [|lia].
  replace (Z.to_nat (Z.min 0 (Z.of_nat (length l)))) with 0 by lia.
  replace (Z.to_nat (Z.max (-1 + Z.of_nat (length l)) 0))
    with (length l - 1) by lia.
  now rewrite Nat.sub_0_r.
Qed.

Lemma divide_diff (rest : list Q) :
  forall x : Q,
    (Forall (fun p => ~ p == 0)%Q (take (length rest) (x :: rest)) ->
     exists rs : list npfloat,
       divide_arrays (np_diff (x :: rest)) (take (length rest) (x :: rest))
         = Returns rs /\
       length rs = length rest /\
       forall (i : nat) (a b : Q),
         (x :: rest) !! i = Some a -> (x :: rest) !! S i = Some b ->
         rs !! i = Some (Fin ((b - a) / a))) /\
    (Exists (fun p => p == 0)%Q (take (length rest) (x :: rest)) ->
     divide_arrays (np_diff (x :: rest)) (take (length rest) (x :: rest))
       = Raises DivisionByZero).
Proof.
  induction rest as [|y rest IH]; intros x.
  - split.
    + intros _. exists []. split; [reflexivity|]. split; [reflexivity|].
      intros i a b _ H. destruct i; discriminate.
    + intros H. simpl in H. inversion H.
  - destruct (IH y) as [IHok IHbad]. clear IH.
    change (np_diff (x :: y :: rest)) with ((y - x)%Q :: np_diff (y :: rest)).
    change (take (length (y :: rest)) (x :: y :: rest))
      with (x :: take (length rest) (y :: rest)).
    cbn [divide_arrays]. unfold np_div.
    destruct (Qeq_bool x 0) eqn:Ex.
    + apply Qeq_bool_iff in Ex. split.
      * intros H. apply Forall_cons in H as [H _]. contradiction.
      * intros _. reflexivity.
    + assert (Hx : ~ (x == 0)%Q).
      { intros H. apply Qeq_bool_iff in H. congruence. }
      cbn [mbind Outcome_bind]. split.
      * intros H. apply Forall_cons in H as [_ H].
        destruct (IHok H) as (rs & Hrs & Hlen & Hval).
        rewrite Hrs. cbn [mbind Outcome_bind].
        eexists. split; [reflexivity|]. split; [simpl; now rewrite Hlen|].
        intros [|i] a b Ha Hb; simpl in Ha, Hb.
        -- injection Ha as <-. injection Hb as <-. reflexivity.
        -- simpl. now apply Hval.
      * intros H. apply Exists_cons in H as [H|H]; [contradiction|].
        now rewrite (IHbad H).
Qed.

(** X21: [calculate_returns] gives the relative change between consecutive
    prices.  Fewer than two prices give an empty result.  Otherwise, when
    none of the prices but the last is 0, it returns one value per
    consecutive pair, [(p[i+1] - p[i]) / p[i]], so one value fewer than
    there are prices; the last price is never a divisor. *)
Theorem returns_divide_by_prices (prices : list Q) :
  (length prices < 2 -> calculate_returns prices = Returns []) /\
  (2 <= length prices ->
   Forall (fun p => ~ p == 0)%Q (take (length prices - 1) prices) ->
   exists rs : list npfloat,
     calculate_returns prices = Returns rs /\
     length rs = length prices - 1 /\
     forall (i : nat) (a b : Q),
       prices !! i = Some a -> prices !! S i = Some b ->
       rs !! i = Some (Fin ((b - a) / a))).
Proof.
  unfold calculate_returns. rewrite py_slice_init.
  split.
  - intros H. apply Nat.ltb_lt in H. now rewrite H.
  - intros H Hall. destruct (Nat.ltb_spec (length prices) 2) as [|_]; [lia|].
    destruct prices as [|x rest]; [simpl in H; lia|].
    replace (length (x :: rest) - 1) with (length rest) in *
      by (simpl; lia).
    exact (proj1 (divide_diff rest x) Hall).
Qed.

Lemma returns_divide_by_prices_witness :
  exists rs : list npfloat,
    calculate_returns [100%Q; 110%Q; 0%Q] = Returns rs /\
    length rs = 2 /\
    rs !! 0 = Some (Fin ((110 - 100) / 100)) /\
    rs !! 1 = Some (Fin ((0 - 110) / 110)).
Proof.
  destruct (proj2 (returns_divide_by_prices [100%Q; 110%Q; 0%Q]))
    as (rs & Hrs & Hlen & Hval).
  - simpl. lia.
  - simpl. repeat constructor; intros H; discriminate H.
  - exists rs. split; [exact Hrs|]. split; [exact Hlen|].
    split; [now apply Hval | now apply Hval].
Defined.




End SeriesFacts.

(** ** Alerts *)

Module AlertFacts.
Import MathUtils Alerts.
Local Open Scope nat_scope.

(** [l[-k:]] for a positive [k]: the last [k] entries, or all of them. *)
Lemma py_slice_tail {A} (l : list A) (k : Z) :
  (0 < k)%Z ->
  py_slice l (- k) (Z.of_nat (length l)) = drop (length l - Z.to_nat k) l.
Proof.
  intros Hk. unfold py_slice, py_bound.
  destruct (Z.ltb_spec (- k) 0); [|lia].
  destruct (Z.ltb_spec (Z.of_nat (length l)) 0); [lia|].
  replace (Z.to_nat (Z.max (- k + Z.of_nat (length l)) 0))
    with (length l - Z.to_nat k) by lia.
  replace (Z.to_nat (Z.min (Z.of_nat (length l)) (Z.of_nat (length l))))
    with (length l) by lia.
  apply take_ge. rewrite length_drop. lia.
Qed.

Lemma add_alert_tail {M} (am : AlertManager M) (n : NewAlert M) :
  (0 < max_alerts am)%Z ->
  alerts (raise_alert am n)
  = drop (length (alerts am ++ [alert_of n]) - Z.to_nat (max_alerts am))
      (alerts am ++ [alert_of n]).
Proof.
  intros Hmax. unfold raise_alert, add_alert, alert_of. cbn [alerts].
  set (appended := alerts am ++ _).
  destruct (Z.ltb_spec (max_alerts am) (Z.of_nat (length appended))).
  - now apply py_slice_tail.
  - replace (length appended - Z.to_nat (max_alerts am)) with 0 by lia.
    reflexivity.
Qed.

(** X23: the alert store is bounded and keeps the newest alerts.  After
    any sequence of [add_alert] calls on a fresh manager the store holds
    exactly the last 1000 alerts raised (all of them when fewer were
    raised), in the order they were raised; so it never holds more than
    1000. *)
Theorem alerts_keep_most_recent {M} (ns : list (NewAlert M)) :
  alerts (raise_all ns) = drop (length ns - 1000) (map alert_of ns) /\
  length (alerts (raise_all ns)) = Nat.min (length ns) 1000 /\
  max_alerts (raise_all ns) = 1000%Z.
Proof.
  assert (H : alerts (raise_all ns) = drop (length ns - 1000) (map alert_of ns)
              /\ max_alerts (raise_all ns) = 1000%Z).
  { unfold raise_all. induction ns as [|n ns IH] using rev_ind.
    - split; reflexivity.
    - rewrite fold_left_app. cbn [fold_left].
      destruct IH as [IHa IHm]. split; [|exact IHm].
      rewrite add_alert_tail by (rewrite IHm; lia).
      rewrite IHa, IHm, map_app, !length_app, length_drop, length_map.
      cbn [map length].
      destruct (decide (length ns < 1000)) as [Hlt|Hge].
      + replace (length ns - 1000) with 0 by lia.
        replace (length ns + 1 - 1000) with 0 by lia.
        replace (length ns - 0 + 1 - Z.to_nat 1000) with 0 by lia.
        reflexivity.
      + replace (length ns - (length ns - 1000) + 1 - Z.to_nat 1000)
          with 1 by lia.
        rewrite <- drop_app_le by (rewrite length_map; lia).
        rewrite drop_drop. f_equal. lia. }
  destruct H as [Ha Hm]. split; [exact Ha|]. split; [|exact Hm].
  rewrite Ha, length_drop, length_map. lia.
Qed.

(** X24: [get_recent_alerts] returns the last [limit] alerts for a
    positive limit, all of them when there are fewer; a limit of 0 returns
    every alert, not none; and a negative limit drops the first [-limit]
    alerts. *)
Theorem recent_alerts_window {M} (am : AlertManager M) (limit : Z) :
  ((0 < limit)%Z ->
   get_recent_alerts am limit
     = drop (length (alerts am) - Z.to_nat limit) (alerts am)) /\
  (limit = 0%Z -> get_recent_alerts am limit = alerts am) /\
  ((limit < 0)%Z ->
   get_recent_alerts am limit = drop (Z.to_nat (- limit)) (alerts am)).
Proof.
  unfold get_recent_alerts. split; [|split].
  - intros H. now apply py_slice_tail.
  - intros ->. unfold py_slice, py_bound. change (- 0)%Z with 0%Z.
    destruct (Z.ltb_spec 0 0); [lia|].
    destruct (Z.ltb_spec (Z.of_nat (length (alerts am))) 0); [lia|].
    replace (Z.to_nat (Z.min 0 (Z.of_nat (length (alerts am))))) with 0 by lia.
    replace (Z.to_nat (Z.min (Z.of_nat (length (alerts am)))
                         (Z.of_nat (length (alerts am)))))
      with (length (alerts am)) by lia.
    rewrite Nat.sub_0_r. apply firstn_all.
  - intros H. unfold py_slice, py_bound.
    destruct (Z.ltb_spec (- limit) 0); [lia|].
    destruct (Z.ltb_spec (Z.of_nat (length (alerts am))) 0); [lia|].
    replace (Z.to_nat (Z.min (Z.of_nat (length (alerts am)))
                         (Z.of_nat (length (alerts am)))))
      with (length (alerts am)) by lia.
    destruct (decide (Z.to_nat (- limit) <= length (alerts am))) as [Hle|Hgt].
    + replace (Z.to_nat (Z.min (- limit) (Z.of_nat (length (alerts am)))))
        with (Z.to_nat (- limit)) by lia.
      apply take_ge. rewrite length_drop. lia.
    + replace (Z.to_nat (Z.min (- limit) (Z.of_nat (length (alerts am)))))
        with (length (alerts am)) by lia.
      rewrite Nat.sub_diag, !drop_ge by lia. reflexivity.
Qed.

Lemma recent_alerts_window_witness :
  get_recent_alerts
    (raise_all [ {| na_level := INFO; na_message := "a"; na_pair := None;
                    na_metadata := @None unit; na_now := 1%Z |};
                 {| na_level := ERROR; na_message := "b"; na_pair := None;
                    na_metadata := None; na_now := 2%Z |} ]) 0
  = alerts
      (raise_all [ {| na_level := INFO; na_message := "a"; na_pair := None;
                      na_metadata := @None unit; na_now := 1%Z |};
                   {| na_level := ERROR; na_message := "b"; na_pair := None;
                      na_metadata := None; na_now := 2%Z |} ]).
Proof.
  apply (proj1 (proj2 (recent_alerts_window _ 0%Z))). reflexivity.
Defined.

End AlertFacts.

(** ** The per-pair cycle *)

Module BotFacts.
Import Signals PairsTrading Execution EngineRuns Bot StrategyFacts
  StrategyStateFacts Scenarios.

Lemma has_position_open (pm : Positions.PositionManager) (k a1 a2 : string)
    (q1 q2 z : Q) (p1 p2 : option Q) (t : Z) :
  Positions.has_position
    (fst (Positions.open_position pm k a1 a2 q1 q2 z p1 p2 t)) k = true.
Proof. apply (proj1 (LedgerLifeFacts.position_life_cycle_cases pm k)). Qed.

Lemma has_position_close (pm : Positions.PositionManager) (k : string)
    (e1 e2 : option Q) (t : Z) :
  match snd (Positions.close_position pm k e1 e2 t) with
  | Dynamic.Normal _ =>
      Positions.has_position (fst (Positions.close_position pm k e1 e2 t)) k
      = false
  | Dynamic.Raised _ =>
      Positions.has_position pm k = true /\
      Positions.has_position (fst (Positions.close_position pm k e1 e2 t)) k
      = true
  end.
Proof. apply (proj2 (LedgerLifeFacts.position_life_cycle_cases pm k)). Qed.

Lemma has_position_other (pm : Positions.PositionManager)
    (op : Positions.LedgerOp) (j : string) :
  Positions.op_pair op <> j ->
  Positions.has_position (Positions.apply_op pm op) j
  = Positions.has_position pm j.
Proof.
  intros Hne. unfold Positions.has_position.
  now rewrite (LedgerFacts.apply_op_other pm op j Hne).
Qed.

Lemma execute_signal_ledger (eng : ExecutionEngine) (signal : Signal)
    (pair_name : string) (balance : Q) (now : Z) :
  ledger_effect (position_manager eng) pair_name now (sig_signal signal)
    (fst (execute_signal eng signal pair_name balance now))
    (position_manager (snd (execute_signal eng signal pair_name balance now))).
Proof.
  unfold execute_signal, get_ticker, place_market_order.
  destruct (sig_signal signal) eqn:Es; [constructor|..];
    cbn [history record_call ticker_last market_order];
    (destruct (ticker_last (exchange eng) (history (exchange eng)) _)
       as [price1|]; [|constructor]);
    (destruct (ticker_last (exchange eng) _ _) as [price2|]; [|constructor]);
    (destruct (adjust_quantities _ _ _ _ _ _ _) as [q1 q2]);
    cbn [Orders.create_order];
    (destruct (market_order (exchange eng) _ _ _ _) as [r1|]);
    (destruct (market_order (exchange eng) _ _ _ _) as [r2|]);
    cbn [update_ledger];
    try match goal with
        | |- context [Positions.close_position ?a ?b ?c ?d ?e] =>
            destruct (Positions.close_position a b c d e)
              as [pm' [ret|message]] eqn:Ecp
        end;
    cbn [fst snd position_manager];
    first [ now apply effect_failed
          | now apply effect_opened
          | now apply effect_other
          | match type of Ecp with
            | Positions.close_position ?a ?b ?c ?d ?e = (_, Dynamic.Normal ?ret) =>
                replace pm' with
                  (Positions.apply_op a (Positions.OpClose b c d e))
                  by (cbn [Positions.apply_op]; now rewrite Ecp);
                apply (effect_closed a b e _ c d ret);
                [reflexivity | now rewrite Ecp]
            | Positions.close_position ?a ?b ?c ?d ?e = (_, Dynamic.Raised ?m) =>
                replace pm' with
                  (Positions.apply_op a (Positions.OpClose b c d e))
                  by (cbn [Positions.apply_op]; now rewrite Ecp);
                apply (effect_close_raised a b e _ c d m);
                [reflexivity | now rewrite Ecp]
            end ].
Qed.

Lemma effect_keeps_others (pm pm' : Positions.PositionManager)
    (pair_name : string) (now : Z) (st : SignalType)
    (result : option ExecutionResult) (j : string) :
  ledger_effect pm pair_name now st result pm' ->
  pair_name <> j ->
  Positions.has_position pm' j = Positions.has_position pm j.
Proof.
  intros H Hne. destruct H; try reflexivity; now apply has_position_other.
Qed.

Lemma effect_on_pair (pm pm' : Positions.PositionManager)
    (pair_name : string) (now : Z) (st : SignalType)
    (result : option ExecutionResult) :
  ledger_effect pm pair_name now st result pm' ->
  Positions.has_position pm' pair_name
  = match result with
    | Some res =>
        if success res then
          match st with
          | buy_spread | sell_spread => true
          | close => false
          | _ => Positions.has_position pm pair_name
          end
        else Positions.has_position pm pair_name
    | None => Positions.has_position pm pair_name
    end.
Proof.
  intros H. destruct H as [st|st res Hs|st res a1 a2 q1 q2 z p1 p2 Hs He
                           |res e1 e2 ret Hs Hret|res e1 e2 m Hs Hm
                           |name res Hs];
    try rewrite Hs; try reflexivity.
  - cbn [Positions.apply_op]. rewrite has_position_open.
    destruct st; try discriminate; reflexivity.
  - cbn [Positions.apply_op].
    pose proof (has_position_close pm pair_name e1 e2 now) as H.
    now rewrite Hret in H.
  - cbn [Positions.apply_op].
    pose proof (has_position_close pm pair_name e1 e2 now) as H.
    rewrite Hm in H. destruct H as [H1 H2]. now rewrite H1, H2.
Qed.

Lemma strategy_after_signal (self : Strategy) (data : PairData)
    (pair_name j : string) :
  position_of (snd (calculate_signals self data pair_name)) j
  = position_of self j.
Proof. apply calculate_signals_position. Qed.

Lemma step_in_step (bot : PairsTradingBot) (c : Cycle) :
  in_step bot -> in_step (step bot c).
Proof.
  intros Hin. unfold step, _process_pair.
  destruct (cy_fetched c) as [data|]; [|exact Hin].
  pose proof (strategy_after_signal (strategy bot) data (cy_pair c)) as Hsame.
  destruct (calculate_signals (strategy bot) data (cy_pair c))
    as [signal strategy1] eqn:Ecs.
  cbn [snd] in Hsame.
  assert (Hhold : in_step {| strategy := strategy1;
                             execution_engine := execution_engine bot;
                             alert_manager := alert_manager bot |}).
  { intros j. cbn [strategy execution_engine]. rewrite Hsame. apply Hin. }
  pose proof (execute_signal_ledger (execution_engine bot) signal (cy_pair c)
                (cy_balance c) (cy_now c)) as Heff.
  destruct (sig_signal signal) eqn:Es; [exact Hhold|..];
    (destruct (execute_signal (execution_engine bot) signal (cy_pair c)
                 (cy_balance c) (cy_now c)) as [result engine1] eqn:Eex;
     cbn [fst snd] in Heff;
     intros j; destruct (decide (cy_pair c = j)) as [<-|Hne];
     [ pose proof (effect_on_pair _ _ _ _ _ _ Heff) as Hpair;
       destruct result as [res|]; cbn [strategy execution_engine];
       [destruct (success res)|];
       rewrite ?update_position_lookup, Hpair, ?Hsame;
       try apply Hin;
       (split; [intros Hgoal; first [reflexivity | destruct Hgoal; discriminate]
               |intros Hgoal; first [eexists; reflexivity | discriminate]])
     | pose proof (effect_keeps_others _ _ _ _ _ _ j Heff Hne) as Hother;
       destruct result as [res|]; cbn [strategy execution_engine];
       [destruct (success res)|];
       rewrite ?update_position_other by exact Hne;
       rewrite Hsame, Hother; apply Hin ]).
Qed.

(** X26: the signal engine and the position ledger stay in step.  For a
    bot started by [PairsTradingBot.__init__] and driven through
    [_process_pair], whatever the data, the balances and the answers of the
    exchange are, after every cycle the strategy holds a position for a
    pair exactly when the position ledger has an open position for it. *)
Theorem strategy_and_ledger_in_step (ex : Exchange)
    (pairs_trading : RiskManagement.Config) (cs : list Cycle) :
  in_step (run_cycles (PairsTradingBot_init ex pairs_trading) cs).
Proof.
  assert (H : forall bot, in_step bot -> in_step (run_cycles bot cs)).
  { unfold run_cycles. induction cs as [|c cs IH]; intros bot Hb; simpl;
      [exact Hb|]. apply IH. now apply step_in_step. }
  apply H. intros pair. unfold PairsTradingBot_init, position_of,
    Positions.has_position. simpl. rewrite !lookup_empty.
  split; [intros [x Hx]; discriminate | discriminate].
Qed.

Lemma last_after_add {M} (am : Alerts.AlertManager M) (n : Alerts.NewAlert M) :
  (0 < Alerts.max_alerts am)%Z ->
  last (Alerts.alerts (Alerts.raise_alert am n)) = Some (Alerts.alert_of n).
Proof.
  intros Hmax. rewrite AlertFacts.add_alert_tail by exact Hmax.
  rewrite length_app. cbn [length].
  rewrite drop_app_le by lia. apply last_snoc.
Qed.

(** X25: the strategy's position is never written speculatively.  In one
    [_process_pair] cycle the positions of all other pairs are left alone,
    and the position of the pair itself changes only when the signal was
    not hold and [execute_signal] returned a result reporting success.
    When the execution returns a failure instead, the position is left as
    it was and the newest alert is an ERROR alert for the pair that carries
    the failed result and names its order id. *)
Theorem position_written_only_on_success (bot : PairsTradingBot)
    (pair_name : string) (data : PairData) (balance : Q) (now : Z) :
  let sg := fst (calculate_signals (strategy bot) data pair_name) in
  let ex := execute_signal (execution_engine bot) sg pair_name balance now in
  let bot' := _process_pair bot pair_name (Some data) balance now in
  (forall j : string, pair_name <> j ->
     position_of (strategy bot') j = position_of (strategy bot) j) /\
  (position_of (strategy bot') pair_name
     <> position_of (strategy bot) pair_name ->
   sig_signal sg <> hold /\
   exists res : ExecutionResult, fst ex = Some res /\ success res = true) /\
  (forall res : ExecutionResult,
     sig_signal sg <> hold -> fst ex = Some res -> success res = false ->
     position_of (strategy bot') pair_name
       = position_of (strategy bot) pair_name /\
     ((0 < Alerts.max_alerts (alert_manager bot))%Z ->
      last (Alerts.alerts (alert_manager bot'))
        = Some {| Alerts.level := Alerts.ERROR;
                  Alerts.message := "交易执行失败: " +:+ order_id res;
                  Alerts.pair_name := Some pair_name;
                  Alerts.metadata := Some res;
                  Alerts.timestamp := now |})).
Proof.
  intros sg ex bot'. subst bot' ex sg. unfold _process_pair.
  pose proof (strategy_after_signal (strategy bot) data pair_name) as Hsame.
  destruct (calculate_signals (strategy bot) data pair_name)
    as [signal strategy1] eqn:Ecs.
  cbn [fst snd] in *.
  destruct (execute_signal (execution_engine bot) signal pair_name balance now)
    as [result engine1] eqn:Eex.
  cbn [fst].
  split; [|split].
  - intros j Hne.
    destruct (sig_signal signal); cbn [strategy]; try apply Hsame;
      (destruct result as [res|]; cbn [strategy]; [destruct (success res)|];
       rewrite ?update_position_other by exact Hne; apply Hsame).
  - intros Hchg.
    destruct (sig_signal signal) eqn:Es; cbn [strategy] in Hchg;
      try (exfalso; apply Hchg; apply Hsame);
      (split; [discriminate|]);
      (destruct result as [res|]; cbn [strategy] in Hchg;
       [destruct (success res) eqn:Hs;
        [exists res; now split | exfalso; apply Hchg; apply Hsame]
       |exfalso; apply Hchg; apply Hsame]).
  - intros res Hsig [= ->] Hfail.
    destruct (sig_signal signal) eqn:Es; [contradiction|..];
      cbn [strategy alert_manager]; rewrite Hfail;
      (split; [apply Hsame|]); intros Hmax;
      apply (last_after_add (alert_manager bot)
               {| Alerts.na_level := Alerts.ERROR;
                  Alerts.na_message := "交易执行失败: " +:+ order_id res;
                  Alerts.na_pair := Some pair_name;
                  Alerts.na_metadata := Some res;
                  Alerts.na_now := now |} Hmax).
Qed.

Lemma position_written_only_on_success_witness :
  let bot := PairsTradingBot_init one_legged_exchange
               RiskManagement.empty_config in
  let bot' := _process_pair bot "BTC-ETH"
                (Some (Recent (Some (sample_stats (25 # 10) (9 # 10)))))
                10000 0%Z in
  position_of (strategy bot') "BTC-ETH" = None /\
  last (Alerts.alerts (alert_manager bot'))
    = Some {| Alerts.level := Alerts.ERROR;
              Alerts.message := "交易执行失败: order_1_0";
              Alerts.pair_name := Some "BTC-ETH";
              Alerts.metadata := Some (failure_payload "order_1_0");
              Alerts.timestamp := 0%Z |}.
Proof.
  intros bot bot'.
  destruct (proj2 (proj2 (position_written_only_on_success bot "BTC-ETH"
                            (Recent (Some (sample_stats (25 # 10) (9 # 10))))
                            10000 0%Z))
              (failure_payload "order_1_0")) as [Hpos Halert].
  - discriminate.
  - vm_compute. reflexivity.
  - reflexivity.
  - split; [exact Hpos|]. apply Halert. reflexivity.
Defined.




End BotFacts.
